(** * Server acquisition and lifecycle of the Luat VS Code extension

    A shallow embedding of [editors/vscode/src/extension.ts]: the server
    locator, the target resolver, the release-asset selection, the download
    and install sequence, and the client session commands, followed by the
    properties the specification states about them.

    Strings are [string]; the file system is a finite map from paths to
    nodes; effects (file system, client session, UI messages, network
    requests, spawned commands) are threaded through a state-and-exception
    monad whose computations may also fail to settle. *)

From Stdlib Require Import String Ascii List ZArith Lia Bool.
From stdpp Require Import gmap strings list fin_maps.

Local Open Scope string_scope.
Local Open Scope list_scope.

(** ** JavaScript strings *)

(** [s.startsWith(p)] *)
Fixpoint startsWith (s p : string) {struct p} : bool :=
  match p, s with
  | EmptyString, _ => true
  | String _ _, EmptyString => false
  | String c p', String d s' => Ascii.eqb c d && startsWith s' p'
  end.

(** [s.endsWith(suffix)]: some tail of [s] is [suffix]. *)
Fixpoint endsWith (s suffix : string) : bool :=
  String.eqb s suffix
  || match s with
     | EmptyString => false
     | String _ s' => endsWith s' suffix
     end.

(** [s.split(delim)] for a one-character delimiter: the empty string splits
    into one empty piece, and adjacent delimiters give empty pieces. *)
Fixpoint split (delim : ascii) (s : string) : list string :=
  match s with
  | EmptyString => [EmptyString]
  | String c s' =>
      if Ascii.eqb c delim then EmptyString :: split delim s'
      else match split delim s' with
           | piece :: pieces => String c piece :: pieces
           | [] => [String c EmptyString]
           end
  end.

(** Truthiness of a value of type [string | undefined]. *)
Definition truthy (v : option string) : bool :=
  match v with
  | Some (String _ _) => true
  | _ => false
  end.

(** [v || d] for [v : string | undefined] and a string [d]. *)
Definition or_else (v : option string) (d : string) : string :=
  match v with
  | Some (String c s) => String c s
  | _ => d
  end.

(** ** The file system *)

(** A file carries its content and permission bits; directories carry
    nothing the extension looks at. *)
Inductive Node :=
  | File (content : string) (mode : N)
  | Dir.

Abbreviation FS := (gmap string Node).

(** [fs.existsSync(p)] is true for files and directories alike. *)
Definition existsSync (fs : FS) (p : string) : bool :=
  match fs !! p with
  | Some _ => true
  | None => false
  end.

(** ** Release descriptors, HTTP responses, spawned commands *)

Record Asset := mkAsset {
  name : string;
  browser_download_url : string;
}.

Record Release := mkRelease {
  tag_name : string;
  assets : list Asset;
}.

(** The value [JSON.parse] hands back for the release request, as far as
    [downloadServer] distinguishes it: a falsy value ([null], [false], [0],
    the empty string); an object of the release shape; any other value, on
    which [release.assets] is [undefined]. *)
Inductive Json :=
  | JFalsy
  | JRelease (r : Release)
  | JOther.

(** What the release request comes back with. *)
Inductive ReleaseReply :=
  | ReleaseRequestError (err : string)
  | ReleaseUnparsable
  | ReleaseParsed (j : Json).

Record Response := mkResponse {
  statusCode : Z;
  location : option string;
  body : string;
}.

Inductive HttpsReply :=
  | RequestError (err : string)
  | Responded (res : Response).

(** A computation either returns or throws (a promise resolves or
    rejects); the thrown value is kept as its string rendering. *)
Inductive Completion (A : Type) :=
  | Return (a : A)
  | Throw (e : string).
Arguments Return {A} a.
Arguments Throw {A} e.

(** ** The host *)

(** What the extension reads from its host and what the outside world
    answers: [process.platform], [process.arch], the environment,
    [os.homedir()], the [luat] workspace configuration, the extension's
    global storage path, Node's [path.join] for the platform, the reply to
    the latest-release request, the reply to an HTTPS GET of a URL, and the
    effect of a shell command run by [child_process.exec]. *)
Record Host := mkHost {
  platform : string;
  arch : string;
  env_PATH : option string;
  env_CARGO_HOME : option string;
  homedir : string;
  config_server_path : option string;
  globalStorage : string;
  path_join : list string -> string;
  latest_release : ReleaseReply;
  https_get : string -> HttpsReply;
  exec : string -> FS -> Completion unit * FS;
}.

(** ** The client session *)

Inductive ClientState :=
  | Uninitialized
  | Starting
  | Running
  | Restarting
  | Stopped.

(** A [LanguageClient] as [activate] builds it: the command of the [run]
    and of the [debug] launch profile, the [RUST_LOG] value of the debug
    profile's environment, and the session state. *)
Record LanguageClient := mkClient {
  run_command : string;
  debug_command : string;
  debug_RUST_LOG : string;
  state : ClientState;
}.

Definition with_state (c : LanguageClient) (s : ClientState) : LanguageClient :=
  {| run_command := run_command c;
     debug_command := debug_command c;
     debug_RUST_LOG := debug_RUST_LOG c;
     state := s |}.

(** Modelled from the spec: [LanguageClient.start] of the
    vscode-languageclient package, which is not part of the repository.
    The session goes [Uninitialized --start--> Starting --> Running]; a
    start issued on a stopped session re-enters from [Uninitialized]. *)
Definition client_start (c : LanguageClient) : LanguageClient :=
  with_state c Running.

(** Modelled from the spec: [LanguageClient.stop] of the
    vscode-languageclient package. [Running|Starting --stop--> Stopped];
    on an already stopped session, and on one never started, it is a no-op,
    not an error. *)
Definition client_stop (c : LanguageClient) : LanguageClient :=
  match state c with
  | Running | Starting | Restarting => with_state c Stopped
  | Stopped | Uninitialized => c
  end.


(** ** The world the extension acts on *)

(** What [context.subscriptions] collects. *)
Inductive Disposable :=
  | StatusBarItem (text tooltip : string)
  | RegisteredCommand (command : string).

(** Observable actions, in the order they happen. *)
Inductive Event :=
  | WarningMessage (message : string) (items : list string)
  | ErrorMessage (message : string)
  | InformationMessage (message : string)
  | ProgressTitle (title : string)
  | ProgressReport (message : string)
  | HttpsGet (url : string)
  | ExecCommand (cmd : string)
  | FileSystemWatcher (glob : string).

Record World := mkWorld {
  files : FS;
  client : option LanguageClient;
  subscriptions : list Disposable;
  trace : list Event;
}.

(** A task runs on a world and either settles (returning or throwing, in a
    new world) or never settles ([None]). *)
Definition Task (A : Type) : Type := World -> option (Completion A * World).

#[global] Instance task_ret : MRet Task :=
  fun A a w => Some (Return a, w).

#[global] Instance task_bind : MBind Task :=
  fun A B k m w =>
    match m w with
    | None => None
    | Some (Throw e, w') => Some (Throw e, w')
    | Some (Return a, w') => k a w'
    end.

(** [throw e] *)
Definition throw {A} (e : string) : Task A :=
  fun w => Some (Throw e, w).

(** A promise that is never resolved nor rejected. *)
Definition never {A} : Task A :=
  fun _ => None.

(** [try { body } catch (error) { handler }] *)
Definition try_catch {A} (body : Task A) (handler : string -> Task A) : Task A :=
  fun w =>
    match body w with
    | None => None
    | Some (Throw e, w') => handler e w'
    | Some (Return a, w') => Some (Return a, w')
    end.

Definition emit (e : Event) : Task unit :=
  fun w => Some (Return tt,
                 {| files := files w; client := client w;
                    subscriptions := subscriptions w;
                    trace := trace w ++ [e] |}).

Definition get_files : Task FS :=
  fun w => Some (Return (files w), w).

Definition set_files (fs : FS) : Task unit :=
  fun w => Some (Return tt,
                 {| files := fs; client := client w;
                    subscriptions := subscriptions w; trace := trace w |}).

Definition get_client : Task (option LanguageClient) :=
  fun w => Some (Return (client w), w).

Definition set_client (c : option LanguageClient) : Task unit :=
  fun w => Some (Return tt,
                 {| files := files w; client := c;
                    subscriptions := subscriptions w; trace := trace w |}).

(** [context.subscriptions.push(d)] *)
Definition subscribe (d : Disposable) : Task unit :=
  fun w => Some (Return tt,
                 {| files := files w; client := client w;
                    subscriptions := subscriptions w ++ [d];
                    trace := trace w |}).

(** ** Node's [fs] calls *)

(** [fs.mkdirSync(dir, { recursive: true })]: nothing to do on an existing
    directory, an error on an existing file. Only [dir] itself is tracked,
    not its ancestors. *)
Definition mkdirSync_recursive (dir : string) : Task unit :=
  fs ← get_files;
  match fs !! dir with
  | None => set_files (<[dir := Dir]> fs)
  | Some Dir => mret tt
  | Some (File _ _) => throw ("Error: EEXIST: file already exists, mkdir '" +:+ dir +:+ "'")
  end.

(** [fs.chmodSync(p, mode)] *)
Definition chmodSync (p : string) (mode : N) : Task unit :=
  fs ← get_files;
  match fs !! p with
  | None => throw ("Error: ENOENT: no such file or directory, chmod '" +:+ p +:+ "'")
  | Some Dir => mret tt
  | Some (File content _) => set_files (<[p := File content mode]> fs)
  end.

(** [fs.unlinkSync(p)] *)
Definition unlinkSync (p : string) : Task unit :=
  fs ← get_files;
  match fs !! p with
  | None => throw ("Error: ENOENT: no such file or directory, unlink '" +:+ p +:+ "'")
  | Some Dir => throw ("Error: EPERM: operation not permitted, unlink '" +:+ p +:+ "'")
  | Some (File _ _) => set_files (delete p fs)
  end.

(** [fs.unlink(p, () => {})]: the outcome is ignored. *)
Definition unlink_ignored (p : string) : Task unit :=
  try_catch (unlinkSync p) (fun _ => mret tt).

(** [fs.createWriteStream(dest)]: the file is created, or truncated. *)
Definition createWriteStream (dest : string) : Task unit :=
  fs ← get_files;
  match fs !! dest with
  | Some (File _ mode) => set_files (<[dest := File EmptyString mode]> fs)
  | _ => set_files (<[dest := File EmptyString 420]> fs)
  end.

(** [res.pipe(file)] up to the stream's [finish] event. *)
Definition pipe (content dest : string) : Task unit :=
  fs ← get_files;
  match fs !! dest with
  | Some (File _ mode) => set_files (<[dest := File content mode]> fs)
  | _ => set_files (<[dest := File content 420]> fs)
  end.

(** ** The extension *)

(** The double-quote character of the shell command lines. *)
Definition dquote : string := String (ascii_of_nat 34) EmptyString.

Definition GITHUB_REPO : string := "maravilla-labs/luat-tools".

(** Where a request made without a URL and without options goes: Node's
    default host, port and path. *)
Definition DEFAULT_REQUEST_URL : string := "https://localhost/".

(** The predicate of [release.assets.find(...)] in [downloadServer]. *)
Definition isMatchingAsset (prefix : string) (a : Asset) : bool :=
  startsWith (name a) prefix
  && (endsWith (name a) ".tar.gz" || endsWith (name a) ".zip").

(** [Array.prototype.find] *)
Fixpoint array_find {A} (p : A -> bool) (l : list A) : option A :=
  match l with
  | [] => None
  | x :: rest => if p x then Some x else array_find p rest
  end.

(** [const assetName = `luat-lsp-${release.tag_name}-${target}`] *)
Definition assetName (release : Release) (target : string) : string :=
  "luat-lsp-" +:+ tag_name release +:+ "-" +:+ target.

(** The asset [downloadServer] picks for a release and a target triple. *)
Definition selectAsset (release : Release) (target : string) : option Asset :=
  array_find (isMatchingAsset (assetName release target)) (assets release).

Section Extension.
Variable h : Host.

(** [const BINARY_NAME = process.platform === "win32" ? "luat-lsp.exe" : "luat-lsp"] *)
Definition BINARY_NAME : string :=
  if String.eqb (platform h) "win32" then "luat-lsp.exe" else "luat-lsp".

(** [path.delimiter] *)
Definition path_delimiter : ascii :=
  if String.eqb (platform h) "win32" then ";"%char else ":"%char.

(** The [for (const dir of pathDirs)] loop of [getServerPath]. *)
Fixpoint searchPathDirs (fs : FS) (pathDirs : list string) : option string :=
  match pathDirs with
  | [] => None
  | dir :: rest =>
      let candidate := path_join h [dir; BINARY_NAME] in
      if existsSync fs candidate then Some candidate
      else searchPathDirs fs rest
  end.

(** [getServerPath]: [None] is [undefined]. *)
Definition getServerPath (fs : FS) : option string :=
  let configPath := config_server_path h in
  if truthy configPath && existsSync fs (or_else configPath EmptyString)
  then configPath
  else
    let extensionServerPath :=
      path_join h [globalStorage h; "server"; BINARY_NAME] in
    if existsSync fs extensionServerPath then Some extensionServerPath
    else
      let pathDirs := split path_delimiter (or_else (env_PATH h) EmptyString) in
      match searchPathDirs fs pathDirs with
      | Some candidate => Some candidate
      | None =>
          let cargoHome :=
            or_else (env_CARGO_HOME h) (path_join h [homedir h; ".cargo"]) in
          let cargoPath := path_join h [cargoHome; "bin"; BINARY_NAME] in
          if existsSync fs cargoPath then Some cargoPath else None
      end.

(** [getPlatformTarget]: [None] is [undefined]. *)
Definition getPlatformTarget : option string :=
  let platform := platform h in
  let arch := arch h in
  if String.eqb platform "linux" && String.eqb arch "x64" then
    Some "x86_64-unknown-linux-gnu"
  else if String.eqb platform "linux" && String.eqb arch "arm64" then
    Some "aarch64-unknown-linux-gnu"
  else if String.eqb platform "darwin" && String.eqb arch "x64" then
    Some "x86_64-apple-darwin"
  else if String.eqb platform "darwin" && String.eqb arch "arm64" then
    Some "aarch64-apple-darwin"
  else if String.eqb platform "win32" && String.eqb arch "x64" then
    Some "x86_64-pc-windows-msvc"
  else None.

(** [getLatestRelease]: one GET of the latest release; a request error
    and a body that does not parse reject the promise. *)
Definition getLatestRelease : Task Json :=
  emit (HttpsGet ("https://api.github.com/repos/" +:+ GITHUB_REPO +:+ "/releases/latest"));;
  match latest_release h with
  | ReleaseRequestError err => throw err
  | ReleaseUnparsable => throw "Error: Failed to parse release data"
  | ReleaseParsed j => mret j
  end.

(** The inner [request] of [downloadFile]. It calls itself on every 301
    or 302 response, without a bound; [fuel] bounds the hops the model
    follows, and the promise does not settle when it runs out. On a
    redirect without a [Location] header it calls [request(undefined)]:
    [https.get(undefined, options, callback)] takes neither argument for
    what it is, so the request goes to Node's default target with no
    response listener, and only the error handler can settle the
    promise. *)
Fixpoint request (fuel : nat) (dest url : string) : Task unit :=
  match fuel with
  | O => never
  | S fuel' =>
      emit (HttpsGet url);;
      match https_get h url with
      | RequestError err =>
          unlink_ignored dest;;
          throw err
      | Responded res =>
          if (statusCode res =? 302)%Z || (statusCode res =? 301)%Z then
            match location res with
            | Some target => request fuel' dest target
            | None =>
                emit (HttpsGet DEFAULT_REQUEST_URL);;
                match https_get h DEFAULT_REQUEST_URL with
                | RequestError err =>
                    unlink_ignored dest;;
                    throw err
                | Responded _ => never
                end
            end
          else pipe (body res) dest
      end
  end.

(** [downloadFile(url, dest)] *)
Definition downloadFile (fuel : nat) (url dest : string) : Task unit :=
  createWriteStream dest;;
  request fuel dest url.

(** [execAsync(cmd)]: the promise rejects when the command fails. *)
Definition execAsync (cmd : string) : Task unit :=
  emit (ExecCommand cmd);;
  fs ← get_files;
  let '(result, fs') := exec h cmd fs in
  set_files fs';;
  match result with
  | Return _ => mret tt
  | Throw e => throw e
  end.

(** [extractArchive(archivePath, destDir)] *)
Definition extractArchive (archivePath destDir : string) : Task unit :=
  if endsWith archivePath ".tar.gz" then
    execAsync ("tar -xzf " +:+ dquote +:+ archivePath +:+ dquote
               +:+ " -C " +:+ dquote +:+ destDir +:+ dquote)
  else if endsWith archivePath ".zip" then
    if String.eqb (platform h) "win32" then
      execAsync ("powershell -Command " +:+ dquote
                 +:+ "Expand-Archive -Path '" +:+ archivePath
                 +:+ "' -DestinationPath '" +:+ destDir +:+ "' -Force" +:+ dquote)
    else
      execAsync ("unzip -o " +:+ dquote +:+ archivePath +:+ dquote
                 +:+ " -d " +:+ dquote +:+ destDir +:+ dquote)
  else mret tt.

(** The body of the [try] block of [downloadServer], for a resolved
    [target]. *)
Definition downloadServer_try (fuel : nat) (target : string) : Task bool :=
  emit (ProgressReport "Fetching latest release...");;
  release ← getLatestRelease;
  match release with
  | JFalsy =>
      emit (ErrorMessage "Failed to fetch latest release");;
      mret false
  | JOther =>
      throw "TypeError: Cannot read properties of undefined (reading 'find')"
  | JRelease release =>
      match selectAsset release target with
      | None =>
          emit (ErrorMessage ("No binary found for " +:+ target
                              +:+ " in release " +:+ tag_name release));;
          mret false
      | Some asset =>
          emit (ProgressReport ("Downloading " +:+ name asset +:+ "..."));;
          let serverDir := path_join h [globalStorage h; "server"] in
          mkdirSync_recursive serverDir;;
          let archivePath := path_join h [serverDir; name asset] in
          downloadFile fuel (browser_download_url asset) archivePath;;
          emit (ProgressReport "Extracting...");;
          extractArchive archivePath serverDir;;
          (if negb (String.eqb (platform h) "win32") then
             let binaryPath := path_join h [serverDir; BINARY_NAME] in
             chmodSync binaryPath 493
           else mret tt);;
          unlinkSync archivePath;;
          mret true
      end
  end.

(** [downloadServer(context)] *)
Definition downloadServer (fuel : nat) : Task bool :=
  match getPlatformTarget with
  | None =>
      emit (ErrorMessage ("Unsupported platform: " +:+ platform h
                          +:+ "-" +:+ arch h));;
      mret false
  | Some target =>
      emit (ProgressTitle "Downloading Luat language server...");;
      try_catch (downloadServer_try fuel target)
        (fun error =>
           emit (ErrorMessage ("Download failed: " +:+ error));;
           mret false)
  end.


(** The handler [activate] registers for [luat.downloadServer]. *)
Definition downloadServerCommand (fuel : nat) : Task unit :=
  downloaded ← downloadServer fuel;
  if downloaded : bool then
    emit (InformationMessage "Luat language server downloaded. Restart to use it.")
  else mret tt.

(** [activate], from the point where a server path is known. *)
Definition startClient (serverPath : string) : Task unit :=
  emit (FileSystemWatcher "**/*.luat");;
  let c := {| run_command := serverPath;
              debug_command := serverPath;
              debug_RUST_LOG := "luat_lsp=debug";
              state := Uninitialized |} in
  set_client (Some c);;
  set_client (Some (client_start c));;
  subscribe (StatusBarItem "$(file-code) Luat" "Luat Language Server");;
  subscribe (RegisteredCommand "luat.restartServer");;
  subscribe (RegisteredCommand "luat.downloadServer").

(** [activate(context)]. [answers] are the user's answers to the
    successive download prompts ([None]: the prompt is dismissed); a
    prompt beyond them is never answered, and the task does not settle.
    The call to itself after a download consumes one answer. *)
Fixpoint activate (fuel : nat) (answers : list (option string)) : Task unit :=
  fs ← get_files;
  let serverPath := getServerPath fs in
  if negb (truthy serverPath) then
    emit (WarningMessage
            "Luat language server not found. Would you like to download it?"
            ["Download"; "Cancel"]);;
    match answers with
    | [] => never
    | choice :: answers' =>
        if bool_decide (choice = Some "Download") then
          downloaded ← downloadServer fuel;
          if negb downloaded then
            emit (ErrorMessage "Failed to download luat-lsp. Please install manually.")
          else activate fuel answers'
        else mret tt
    end
  else startClient (or_else serverPath EmptyString).

(** [deactivate()] *)
Definition deactivate : Task unit :=
  c ← get_client;
  match c with
  | Some c => set_client (Some (client_stop c))
  | None => mret tt
  end.

End Extension.

(** ** What the specification compares the code with *)

(** The locator's candidates in the precedence order of the
    specification: the configured override when one is set, the binary in
    the extension's storage directory, the binary in each directory of the
    search path, the binary in the cargo install directory. *)
Definition locatorCandidates (h : Host) : list string :=
  (if truthy (config_server_path h)
   then [or_else (config_server_path h) EmptyString] else [])
  ++ [path_join h [globalStorage h; "server"; BINARY_NAME h]]
  ++ map (fun dir => path_join h [dir; BINARY_NAME h])
         (split (path_delimiter h) (or_else (env_PATH h) EmptyString))
  ++ [path_join h [or_else (env_CARGO_HOME h) (path_join h [homedir h; ".cargo"]);
                   "bin"; BINARY_NAME h]].

(** The documented table of supported (OS, architecture) pairs. *)
Definition documentedTargets : list (string * string * string) :=
  [ ("linux", "x64", "x86_64-unknown-linux-gnu");
    ("linux", "arm64", "aarch64-unknown-linux-gnu");
    ("darwin", "x64", "x86_64-apple-darwin");
    ("darwin", "arm64", "aarch64-apple-darwin");
    ("win32", "x64", "x86_64-pc-windows-msvc") ].

(** Looking a pair up in a table of targets. *)
Fixpoint lookupTarget (os cpu : string) (table : list (string * string * string))
  : option string :=
  match table with
  | [] => None
  | (os', cpu', triple) :: rest =>
      if String.eqb os os' && String.eqb cpu cpu' then Some triple
      else lookupTarget os cpu rest
  end.

(** ** Sample hosts *)

(** [path.join] on a POSIX host for segments that need no normalisation:
    the non-empty segments, joined by slashes. *)
Definition join_segments (segments : list string) : string :=
  String.concat "/" (List.filter (fun s => negb (String.eqb s EmptyString)) segments).

Definition sample_release : Release :=
  {| tag_name := "v0.2.0";
     assets :=
       [ {| name := "luat-0.2.0.vsix";
            browser_download_url := "https://example.org/luat-0.2.0.vsix" |};
         {| name := "luat-lsp-v0.2.0-x86_64-unknown-linux-gnu.tar.gz";
            browser_download_url := "https://example.org/linux-x64" |};
         {| name := "luat-lsp-v0.2.0-x86_64-pc-windows-msvc.zip";
            browser_download_url := "https://example.org/win-x64" |} ] |}.

(** A tar that unpacks the binary straight into the destination
    directory; every other command fails. *)
Definition flat_tar (cmd : string) (fs : FS) : Completion unit * FS :=
  if startsWith cmd "tar -xzf " then
    (Return tt, <["/home/dev/storage/server/luat-lsp" := File "ELF" 420]> fs)
  else (Throw "Error: Command failed", fs).

(** A tar that unpacks the binary into a subdirectory named after the
    release. *)
Definition nested_tar (cmd : string) (fs : FS) : Completion unit * FS :=
  if startsWith cmd "tar -xzf " then
    (Return tt,
     <["/home/dev/storage/server/luat-lsp-v0.2.0/luat-lsp" := File "ELF" 493]>
       (<["/home/dev/storage/server/luat-lsp-v0.2.0" := Dir]> fs))
  else (Throw "Error: Command failed", fs).

(** The download URL redirects once and then serves the archive. *)
Definition sample_https (url : string) : HttpsReply :=
  if String.eqb url "https://example.org/linux-x64" then
    Responded {| statusCode := 302;
                 location := Some "https://cdn.example.org/linux-x64";
                 body := EmptyString |}
  else if String.eqb url "https://cdn.example.org/linux-x64" then
    Responded {| statusCode := 200; location := None; body := "TGZ" |}
  else RequestError "Error: getaddrinfo ENOTFOUND".

Definition linux_host : Host :=
  {| platform := "linux";
     arch := "x64";
     env_PATH := Some "/usr/local/bin:/usr/bin";
     env_CARGO_HOME := None;
     homedir := "/home/dev";
     config_server_path := None;
     globalStorage := "/home/dev/storage";
     path_join := join_segments;
     latest_release := ReleaseParsed (JRelease sample_release);
     https_get := sample_https;
     exec := flat_tar |}.

(** The same host, whose release archive holds the binary in a
    subdirectory. *)
Definition linux_host_nested : Host :=
  {| platform := "linux";
     arch := "x64";
     env_PATH := Some "/usr/local/bin:/usr/bin";
     env_CARGO_HOME := None;
     homedir := "/home/dev";
     config_server_path := None;
     globalStorage := "/home/dev/storage";
     path_join := join_segments;
     latest_release := ReleaseParsed (JRelease sample_release);
     https_get := sample_https;
     exec := nested_tar |}.

(** The listing of the specification's test, under this extension's
    binary name. *)
Definition zip_then_tgz : Release :=
  {| tag_name := "v1";
     assets := [ {| name := "luat-lsp-v1-x64.zip"; browser_download_url := "u1" |};
                 {| name := "luat-lsp-v1-x64.tar.gz"; browser_download_url := "u2" |} ] |}.

Definition empty_world : World :=
  {| files := ∅; client := None; subscriptions := []; trace := [] |}.

(** The world right after [activate] has shown its download prompt. *)
Definition prompted (w : World) : World :=
  {| files := files w; client := client w; subscriptions := subscriptions w;
     trace := trace w ++
       [WarningMessage
          "Luat language server not found. Would you like to download it?"
          ["Download"; "Cancel"]] |}.

(** A task that leaves the client session as it found it. *)
Definition keeps_client {A} (t : Task A) : Prop :=
  forall w r w', t w = Some (r, w') -> client w' = client w.

(** A world whose storage directory already holds the server, with no
    session. *)
Definition located_world : World :=
  {| files := <["/home/dev/storage/server/luat-lsp" := File "ELF" 493]> ∅;
     client := None; subscriptions := []; trace := [] |}.

(** A world with a running session. *)
Definition running_world : World :=
  {| files := <["/home/dev/storage/server/luat-lsp" := File "ELF" 493]> ∅;
     client := Some {| run_command := "/home/dev/storage/server/luat-lsp";
                       debug_command := "/home/dev/storage/server/luat-lsp";
                       debug_RUST_LOG := "luat_lsp=debug";
                       state := Running |};
     subscriptions := []; trace := [] |}.

(** The URL reached from [url] by following [hops] redirect responses the
    way [request] does, when there are that many. *)
Fixpoint follow (h : Host) (hops : nat) (url : string) : option string :=
  match hops with
  | O => Some url
  | S hops' =>
      match https_get h url with
      | Responded res =>
          if (statusCode res =? 302)%Z || (statusCode res =? 301)%Z then
            match location res with
            | Some target => follow h hops' target
            | None => None
            end
          else None
      | RequestError _ => None
      end
  end.

(** The download URL redirects once, and the redirect target answers 404
    with an error page. *)
Definition https_404 (url : string) : HttpsReply :=
  if String.eqb url "https://example.org/linux-x64" then
    Responded {| statusCode := 302;
                 location := Some "https://cdn.example.org/linux-x64";
                 body := EmptyString |}
  else Responded {| statusCode := 404; location := None; body := "Not Found" |}.

Definition linux_host_404 : Host :=
  {| platform := "linux";
     arch := "x64";
     env_PATH := Some "/usr/local/bin:/usr/bin";
     env_CARGO_HOME := None;
     homedir := "/home/dev";
     config_server_path := None;
     globalStorage := "/home/dev/storage";
     path_join := join_segments;
     latest_release := ReleaseParsed (JRelease sample_release);
     https_get := https_404;
     exec := flat_tar |}.

(** The world [activate] leaves on the sample host after the user accepts
    the download in an empty world. *)
Definition installed_world : World :=
  match activate linux_host 2 [Some "Download"] empty_world with
  | Some (_, w) => w
  | None => empty_world
  end.

(** ** Further sample hosts *)

(** The sample host with another platform, release reply, network and
    shell. *)
Definition sample_host (os cpu : string) (reply : ReleaseReply)
    (get : string -> HttpsReply)
    (run : string -> FS -> Completion unit * FS) : Host :=
  {| platform := os;
     arch := cpu;
     env_PATH := Some "/usr/local/bin:/usr/bin";
     env_CARGO_HOME := None;
     homedir := "/home/dev";
     config_server_path := None;
     globalStorage := "/home/dev/storage";
     path_join := join_segments;
     latest_release := reply;
     https_get := get;
     exec := run |}.

(** Linux on a 32-bit ARM: not one of the supported pairs. *)
Definition linux_arm_host : Host :=
  sample_host "linux" "arm" (ReleaseParsed (JRelease sample_release))
    sample_https flat_tar.

(** A Mac on Apple silicon: supported, but the sample release has no asset
    for it. *)
Definition darwin_host : Host :=
  sample_host "darwin" "arm64" (ReleaseParsed (JRelease sample_release))
    sample_https flat_tar.

(** The release request fails. *)
Definition linux_host_no_release : Host :=
  sample_host "linux" "x64" (ReleaseRequestError "Error: socket hang up")
    sample_https flat_tar.

(** Every download request fails. *)
Definition https_down (url : string) : HttpsReply :=
  RequestError "Error: connect ECONNREFUSED".

Definition linux_host_down : Host :=
  sample_host "linux" "x64" (ReleaseParsed (JRelease sample_release))
    https_down flat_tar.

(** Every URL redirects to itself. *)
Definition https_loop (url : string) : HttpsReply :=
  Responded {| statusCode := 301; location := Some url; body := EmptyString |}.

Definition linux_host_loop : Host :=
  sample_host "linux" "x64" (ReleaseParsed (JRelease sample_release))
    https_loop flat_tar.

(** Every command fails and leaves the files alone. *)
Definition failing_exec (cmd : string) (fs : FS) : Completion unit * FS :=
  (Throw "Error: Command failed", fs).

Definition linux_host_broken_tar : Host :=
  sample_host "linux" "x64" (ReleaseParsed (JRelease sample_release))
    sample_https failing_exec.

(** The world a task leaves, for the sample runs. *)
Definition world_after {A} (t : Task A) (w : World) : World :=
  match t w with
  | Some (_, w') => w'
  | None => w
  end.

(** [res] is a redirect for [request]. *)
Definition isRedirect (res : Response) : bool :=
  (statusCode res =? 302)%Z || (statusCode res =? 301)%Z.

(** The error [downloadServer] shows when the release reply is not a
    release. *)
Definition releaseFailureMessage (reply : ReleaseReply) : string :=
  match reply with
  | ReleaseRequestError err => "Download failed: " +:+ err
  | ReleaseUnparsable => "Download failed: Error: Failed to parse release data"
  | ReleaseParsed JFalsy => "Failed to fetch latest release"
  | ReleaseParsed JOther =>
      "Download failed: TypeError: Cannot read properties of undefined (reading 'find')"
  | ReleaseParsed (JRelease _) => EmptyString
  end.

(** The command [extractArchive] runs for a recognised archive path. *)
Definition extractCommand (h : Host) (archivePath destDir : string) : string :=
  if endsWith archivePath ".tar.gz" then
    "tar -xzf " +:+ dquote +:+ archivePath +:+ dquote
    +:+ " -C " +:+ dquote +:+ destDir +:+ dquote
  else if String.eqb (platform h) "win32" then
    "powershell -Command " +:+ dquote
    +:+ "Expand-Archive -Path '" +:+ archivePath
    +:+ "' -DestinationPath '" +:+ destDir +:+ "' -Force" +:+ dquote
  else
    "unzip -o " +:+ dquote +:+ archivePath +:+ dquote
    +:+ " -d " +:+ dquote +:+ destDir +:+ dquote.

(** [c] does not occur in [s]. *)
Fixpoint free_of (c : ascii) (s : string) : bool :=
  match s with
  | EmptyString => true
  | String d s' => negb (Ascii.eqb d c) && free_of c s'
  end.

(** A Windows host whose release zip unpacks the binary into a
    subdirectory. *)
Definition nested_zip (cmd : string) (fs : FS) : Completion unit * FS :=
  if startsWith cmd "powershell -Command " then
    (Return tt,
     <["/home/dev/storage/server/luat-lsp-v0.2.0/luat-lsp.exe" := File "PE" 420]> fs)
  else (Throw "Error: Command failed", fs).

Definition win_https (url : string) : HttpsReply :=
  if String.eqb url "https://example.org/win-x64" then
    Responded {| statusCode := 200; location := None; body := "ZIP" |}
  else RequestError "Error: getaddrinfo ENOTFOUND".

Definition win_host : Host :=
  sample_host "win32" "x64" (ReleaseParsed (JRelease sample_release))
    win_https nested_zip.

(** ** Commands, sessions and prompts *)

(** The download prompt of [activate]. *)
Definition isPrompt (e : Event) : bool :=
  match e with
  | WarningMessage _ _ => true
  | _ => false
  end.

(** A task that works in the background: it leaves the session and the
    subscriptions as they were, and what it adds to the trace holds no
    prompt. *)
Definition background {A} (t : Task A) : Prop :=
  forall w r w',
    t w = Some (r, w') ->
    client w' = client w
    /\ subscriptions w' = subscriptions w
    /\ exists events,
         trace w' = trace w ++ events
         /\ forallb (fun e => negb (isPrompt e)) events = true.






(** * Properties *)

(** ** Strings and [find] *)

Lemma startsWith_spec (s p : string) :
  startsWith s p = true <-> exists rest, s = p +:+ rest.
Proof.
  revert s; induction p as [|c p IH]; intros s; simpl.
  - split; [intros _; now exists s | reflexivity].
  - destruct s as [|d s].
    + split; [discriminate | intros [rest H]; discriminate].
    + rewrite andb_true_iff, IH. split.
      * intros [Hc [rest ->]]. apply Ascii.eqb_eq in Hc as ->. now exists rest.
      * intros [rest H]. injection H as -> ->.
        split; [apply Ascii.eqb_refl | now exists rest].
Qed.

Lemma endsWith_unfold (s suffix : string) :
  endsWith s suffix =
  String.eqb s suffix
  || match s with
     | EmptyString => false
     | String _ s' => endsWith s' suffix
     end.
Proof. now destruct s. Qed.

Lemma endsWith_spec (s suffix : string) :
  endsWith s suffix = true <-> exists front, s = front +:+ suffix.
Proof.
  induction s as [|c s IH]; rewrite endsWith_unfold, orb_true_iff, String.eqb_eq.
  - split.
    + intros [<- | ?]; [now exists EmptyString | discriminate].
    + intros [[|d front] H]; simpl in H; [left; now symmetry | discriminate].
  - rewrite IH. split.
    + intros [<- | [front ->]]; [now exists EmptyString | now exists (String c front)].
    + intros [[|d front] H]; simpl in H.
      * left. now symmetry.
      * injection H as -> ->. right. now exists front.
Qed.

Lemma array_find_app {A} (p : A -> bool) (l1 l2 : list A) :
  array_find p (l1 ++ l2) =
  match array_find p l1 with
  | Some x => Some x
  | None => array_find p l2
  end.
Proof.
  induction l1 as [|x l1 IH]; simpl; [reflexivity|].
  now destruct (p x).
Qed.

Lemma array_find_Some {A} (p : A -> bool) (l : list A) (x : A) :
  array_find p l = Some x <->
  exists before after,
    l = before ++ x :: after /\ p x = true
    /\ Forall (fun y => p y = false) before.
Proof.
  induction l as [|y l IH]; simpl.
  - split; [discriminate|]. intros ([|? ?] & ? & H & _); discriminate.
  - destruct (p y) eqn:Hy.
    + split.
      * intros [= ->]. exists [], l. repeat split; [assumption | constructor].
      * intros ([|z before] & after & Hl & Hx & Hb); simpl in Hl.
        -- now injection Hl as ->.
        -- injection Hl as -> _. inversion Hb; congruence.
    + rewrite IH. split.
      * intros (before & after & -> & Hx & Hb).
        exists (y :: before), after. repeat split; [assumption | now constructor].
      * intros ([|z before] & after & Hl & Hx & Hb); simpl in Hl.
        -- injection Hl as -> _. congruence.
        -- injection Hl as -> ->. exists before, after.
           repeat split; [assumption | now inversion Hb].
Qed.

Lemma array_find_None {A} (p : A -> bool) (l : list A) :
  array_find p l = None <-> Forall (fun y => p y = false) l.
Proof.
  induction l as [|y l IH]; simpl.
  - split; [constructor | reflexivity].
  - destruct (p y) eqn:Hy.
    + split; [discriminate | intros H; inversion H; congruence].
    + rewrite IH. split; [now constructor | now inversion 1].
Qed.

(** ** Server Locator *)

Lemma searchPathDirs_find (h : Host) (fs : FS) (pathDirs : list string) :
  searchPathDirs h fs pathDirs =
  array_find (existsSync fs)
    (map (fun dir => path_join h [dir; BINARY_NAME h]) pathDirs).
Proof.
  induction pathDirs as [|dir rest IH]; simpl; [reflexivity|].
  now rewrite IH.
Qed.

Lemma getServerPath_find (h : Host) (fs : FS) :
  getServerPath h fs = array_find (existsSync fs) (locatorCandidates h).
Proof.
  unfold getServerPath, locatorCandidates.
  rewrite searchPathDirs_find.
  destruct (config_server_path h) as [[|c s]|] eqn:Hcfg; simpl.
  - rewrite array_find_app. simpl.
    destruct (existsSync fs (path_join h [globalStorage h; "server"; BINARY_NAME h]));
      [reflexivity|].
    now destruct (array_find _ _).
  - destruct (existsSync fs (String c s)); [reflexivity|].
    destruct (existsSync fs (path_join h [globalStorage h; "server"; BINARY_NAME h]));
      [reflexivity|].
    rewrite array_find_app. now destruct (array_find _ _).
  - destruct (existsSync fs (path_join h [globalStorage h; "server"; BINARY_NAME h]));
      [reflexivity|].
    rewrite array_find_app. now destruct (array_find _ _).
Qed.

(** C1. For every host and file system, [getServerPath] returns the first
    candidate that exists, in the order: configured override, storage
    directory, search-path directories in their order, cargo directory. It
    returns a path exactly when that path is a candidate that exists and
    every candidate before it does not exist, whatever holds of the later
    ones; it returns [undefined] exactly when no candidate exists. *)
Theorem getServerPath_first_existing (h : Host) (fs : FS) :
  getServerPath h fs = array_find (existsSync fs) (locatorCandidates h)
  /\ (forall p,
        getServerPath h fs = Some p <->
        exists before after,
          locatorCandidates h = before ++ p :: after
          /\ existsSync fs p = true
          /\ Forall (fun q => existsSync fs q = false) before)
  /\ (getServerPath h fs = None <->
      Forall (fun q => existsSync fs q = false) (locatorCandidates h)).
Proof.
  split; [apply getServerPath_find|]. split.
  - intros p. rewrite getServerPath_find. apply array_find_Some.
  - rewrite getServerPath_find. apply array_find_None.
Qed.

(** The test of the specification: files at candidates 2 and 4, and the
    locator answers candidate 2. *)
Example getServerPath_storage_before_cargo :
  getServerPath linux_host
    (<["/home/dev/.cargo/bin/luat-lsp" := File "ELF" 493]>
       (<["/home/dev/storage/server/luat-lsp" := File "ELF" 493]> ∅))
  = Some "/home/dev/storage/server/luat-lsp".
Proof. vm_compute. reflexivity. Qed.


(** ** Target Resolver *)

Lemma getPlatformTarget_lookup (h : Host) :
  getPlatformTarget h = lookupTarget (platform h) (arch h) documentedTargets.
Proof.
  unfold getPlatformTarget, documentedTargets, lookupTarget.
  repeat match goal with
         | |- context [String.eqb ?a ?b] => destruct (String.eqb a b); simpl
         end; reflexivity.
Qed.

Lemma lookupTarget_documented (os cpu : string) :
  (forall triple,
     lookupTarget os cpu documentedTargets = Some triple <->
     In (os, cpu, triple) documentedTargets)
  /\ (lookupTarget os cpu documentedTargets = None <->
      ~ In (os, cpu) (map fst documentedTargets)).
Proof.
  unfold documentedTargets, lookupTarget; simpl. split.
  - intros triple. split.
    + repeat match goal with
             | |- context [String.eqb ?a ?b] =>
                 destruct (String.eqb_spec a b); subst; simpl
             end; intros [= <-]; tauto.
    + intros H.
      repeat (destruct H as [[= <- <- <-] | H]; [reflexivity|]).
      destruct H.
  - split.
    + repeat match goal with
             | |- context [String.eqb ?a ?b] =>
                 destruct (String.eqb_spec a b); subst; simpl
             end; try discriminate; intros _ H;
        repeat (destruct H as [H' | H]; [congruence|]); destruct H.
    + intros H.
      repeat match goal with
             | |- context [String.eqb ?a ?b] =>
                 destruct (String.eqb_spec a b); subst; simpl
             end; try reflexivity; exfalso; apply H; tauto.
Qed.

(** C2. [getPlatformTarget] is the lookup of (platform, architecture) in
    the documented table of five pairs: it returns a triple exactly when
    the table lists that triple for the pair, and [undefined] exactly when
    the pair is none of the five. *)
Theorem getPlatformTarget_five_pairs (h : Host) :
  getPlatformTarget h = lookupTarget (platform h) (arch h) documentedTargets
  /\ (forall triple,
        getPlatformTarget h = Some triple <->
        In (platform h, arch h, triple) documentedTargets)
  /\ (getPlatformTarget h = None <->
      ~ In (platform h, arch h) (map fst documentedTargets))
  /\ map fst documentedTargets =
     [("linux", "x64"); ("linux", "arm64"); ("darwin", "x64");
      ("darwin", "arm64"); ("win32", "x64")].
Proof.
  rewrite getPlatformTarget_lookup.
  destruct (lookupTarget_documented (platform h) (arch h)) as [HS HN].
  repeat split; try apply HS; apply HN.
Qed.

(** An unlisted pair: Linux on a 32-bit ARM. *)
Example getPlatformTarget_linux_arm :
  getPlatformTarget
    {| platform := "linux"; arch := "arm"; env_PATH := None;
       env_CARGO_HOME := None; homedir := "/home/dev";
       config_server_path := None; globalStorage := "/home/dev/storage";
       path_join := join_segments; latest_release := ReleaseUnparsable;
       https_get := sample_https; exec := flat_tar |} = None.
Proof. reflexivity. Qed.

(** ** Release Fetcher *)

Lemma isMatchingAsset_spec (prefix : string) (a : Asset) :
  isMatchingAsset prefix a = true <->
  (exists rest, name a = prefix +:+ rest)
  /\ ((exists front, name a = front +:+ ".tar.gz")
      \/ (exists front, name a = front +:+ ".zip")).
Proof.
  unfold isMatchingAsset.
  now rewrite andb_true_iff, orb_true_iff, startsWith_spec, !endsWith_spec.
Qed.

(** C3. The asset [downloadServer] selects is the first one, in the
    listing order of the release, whose name starts with
    [luat-lsp-<tag>-<triple>] and ends with [.tar.gz] or [.zip]: every
    asset listed before it fails the test, and nothing is selected exactly
    when every asset fails it. In a listing of a zip followed by a tar.gz,
    both passing the test, the zip is selected. *)
Theorem selectAsset_first_in_listing_order (release : Release) (target : string) :
  assetName release target = "luat-lsp-" +:+ tag_name release +:+ "-" +:+ target
  /\ (forall a,
        selectAsset release target = Some a <->
        exists before after,
          assets release = before ++ a :: after
          /\ isMatchingAsset (assetName release target) a = true
          /\ Forall (fun b => isMatchingAsset (assetName release target) b = false)
                    before)
  /\ (selectAsset release target = None <->
      Forall (fun b => isMatchingAsset (assetName release target) b = false)
             (assets release))
  /\ (forall a,
        isMatchingAsset (assetName release target) a = true <->
        (exists rest, name a = assetName release target +:+ rest)
        /\ ((exists front, name a = front +:+ ".tar.gz")
            \/ (exists front, name a = front +:+ ".zip")))
  /\ (Forall (fun a => isMatchingAsset (assetName zip_then_tgz "x64") a = true)
             (assets zip_then_tgz)
      /\ selectAsset zip_then_tgz "x64" = head (assets zip_then_tgz)).
Proof.
  split; [reflexivity|]. unfold selectAsset.
  split; [intros a; apply array_find_Some|].
  split; [apply array_find_None|].
  split; [intros a; apply isMatchingAsset_spec|].
  split; [repeat constructor | reflexivity].
Qed.

(** ** Tasks that leave the session alone *)

Lemma keeps_client_bind {A B} (m : Task A) (k : A -> Task B) :
  keeps_client m -> (forall a, keeps_client (k a)) -> keeps_client (m ≫= k).
Proof.
  intros Hm Hk w r w'. unfold mbind, task_bind.
  destruct (m w) as [[[a|e] w1]|] eqn:E; [..|discriminate].
  - intros H. rewrite (Hk a _ _ _ H). eapply Hm; eassumption.
  - intros [= <- <-]. eapply Hm; eassumption.
Qed.

Lemma keeps_client_try_catch {A} (body : Task A) (handler : string -> Task A) :
  keeps_client body -> (forall e, keeps_client (handler e)) ->
  keeps_client (try_catch body handler).
Proof.
  intros Hb Hh w r w'. unfold try_catch.
  destruct (body w) as [[[a|e] w1]|] eqn:E; [..|discriminate].
  - intros [= <- <-]. eapply Hb; eassumption.
  - intros H. rewrite (Hh e _ _ _ H). eapply Hb; eassumption.
Qed.

Lemma keeps_client_ret {A} (a : A) : keeps_client (mret a).
Proof. now intros w r w' [= <- <-]. Qed.

Lemma keeps_client_throw {A} (e : string) : keeps_client (@throw A e).
Proof. now intros w r w' [= <- <-]. Qed.

Lemma keeps_client_never {A} : keeps_client (@never A).
Proof. intros w r w'; discriminate. Qed.

Lemma keeps_client_emit (e : Event) : keeps_client (emit e).
Proof. now intros w r w' [= <- <-]. Qed.

Lemma keeps_client_get_files : keeps_client get_files.
Proof. now intros w r w' [= <- <-]. Qed.

Lemma keeps_client_set_files (fs : FS) : keeps_client (set_files fs).
Proof. now intros w r w' [= <- <-]. Qed.

Ltac keeps_client_step :=
  first
    [ apply keeps_client_bind; [|intros ?]
    | apply keeps_client_try_catch; [|intros ?]
    | apply keeps_client_ret
    | apply keeps_client_throw
    | apply keeps_client_never
    | apply keeps_client_emit
    | apply keeps_client_get_files
    | apply keeps_client_set_files
    | assumption
    | match goal with
      | |- keeps_client (match ?x with _ => _ end) => destruct x
      | |- keeps_client (let '(_, _) := ?x in _) => destruct x
      end ].

Ltac keeps_client_auto := repeat keeps_client_step.

Lemma keeps_client_request (h : Host) (fuel : nat) (dest url : string) :
  keeps_client (request h fuel dest url).
Proof.
  revert url; induction fuel as [|fuel IH]; intros url; simpl.
  - apply keeps_client_never.
  - unfold unlink_ignored, unlinkSync, pipe. keeps_client_auto. apply IH.
Qed.

Lemma keeps_client_downloadServer (h : Host) (fuel : nat) :
  keeps_client (downloadServer h fuel).
Proof.
  unfold downloadServer, downloadServer_try, getLatestRelease, downloadFile,
    extractArchive, execAsync, mkdirSync_recursive, chmodSync, unlinkSync,
    createWriteStream.
  keeps_client_auto; apply keeps_client_request.
Qed.

(** ** Tasks that work in the background *)

Lemma background_bind {A B} (m : Task A) (k : A -> Task B) :
  background m -> (forall a, background (k a)) -> background (m ≫= k).
Proof.
  intros Hm Hk w r w'. unfold mbind, task_bind.
  destruct (m w) as [[[a|e] w1]|] eqn:E; [..|discriminate].
  - intros H.
    destruct (Hm _ _ _ E) as (Hc1 & Hs1 & ev1 & Ht1 & Hq1).
    destruct (Hk a _ _ _ H) as (Hc2 & Hs2 & ev2 & Ht2 & Hq2).
    split; [congruence|]. split; [congruence|].
    exists (ev1 ++ ev2). rewrite Ht2, Ht1, <- app_assoc.
    split; [reflexivity|]. rewrite forallb_app, Hq1, Hq2. reflexivity.
  - intros [= <- <-]. eapply Hm; eassumption.
Qed.

Lemma background_try_catch {A} (body : Task A) (handler : string -> Task A) :
  background body -> (forall e, background (handler e)) ->
  background (try_catch body handler).
Proof.
  intros Hb Hh w r w'. unfold try_catch.
  destruct (body w) as [[[a|e] w1]|] eqn:E; [..|discriminate].
  - intros [= <- <-]. eapply Hb; eassumption.
  - intros H.
    destruct (Hb _ _ _ E) as (Hc1 & Hs1 & ev1 & Ht1 & Hq1).
    destruct (Hh e _ _ _ H) as (Hc2 & Hs2 & ev2 & Ht2 & Hq2).
    split; [congruence|]. split; [congruence|].
    exists (ev1 ++ ev2). rewrite Ht2, Ht1, <- app_assoc.
    split; [reflexivity|]. rewrite forallb_app, Hq1, Hq2. reflexivity.
Qed.

Lemma background_silent {A} (t : Task A) :
  (forall w r w',
     t w = Some (r, w') ->
     client w' = client w /\ subscriptions w' = subscriptions w
     /\ trace w' = trace w) ->
  background t.
Proof.
  intros H w r w' Hrun. destruct (H _ _ _ Hrun) as (? & ? & Ht).
  repeat split; try assumption. exists []. now rewrite app_nil_r.
Qed.

Lemma background_ret {A} (a : A) : background (mret a).
Proof. apply background_silent. now intros w r w' [= <- <-]. Qed.

Lemma background_throw {A} (e : string) : background (@throw A e).
Proof. apply background_silent. now intros w r w' [= <- <-]. Qed.

Lemma background_never {A} : background (@never A).
Proof. intros w r w'; discriminate. Qed.

Lemma background_get_files : background get_files.
Proof. apply background_silent. now intros w r w' [= <- <-]. Qed.

Lemma background_set_files (fs : FS) : background (set_files fs).
Proof. apply background_silent. now intros w r w' [= <- <-]. Qed.

Lemma background_emit (e : Event) : isPrompt e = false -> background (emit e).
Proof.
  intros He w r w' [= <- <-]. repeat split. exists [e]. simpl.
  now rewrite He.
Qed.

Ltac background_step :=
  first
    [ apply background_bind; [|intros ?]
    | apply background_try_catch; [|intros ?]
    | apply background_ret
    | apply background_throw
    | apply background_never
    | apply background_emit; reflexivity
    | apply background_get_files
    | apply background_set_files
    | assumption
    | match goal with
      | |- background (match ?x with _ => _ end) => destruct x
      | |- background (let '(_, _) := ?x in _) => destruct x
      end ].

Ltac background_auto := repeat background_step.

Lemma background_request (h : Host) (fuel : nat) (dest url : string) :
  background (request h fuel dest url).
Proof.
  revert url; induction fuel as [|fuel IH]; intros url; simpl.
  - apply background_never.
  - unfold unlink_ignored, unlinkSync, pipe. background_auto. apply IH.
Qed.

Lemma background_downloadServer (h : Host) (fuel : nat) :
  background (downloadServer h fuel).
Proof.
  unfold downloadServer, downloadServer_try, getLatestRelease, downloadFile,
    extractArchive, execAsync, mkdirSync_recursive, chmodSync, unlinkSync,
    createWriteStream.
  background_auto; apply background_request.
Qed.


(** ** Acquisition Orchestrator *)

Ltac run_task :=
  unfold mbind, task_bind, mret, task_ret, emit, get_files, set_files,
    get_client, set_client, subscribe, throw, never, try_catch; simpl.

Lemma truthy_Some (v : option string) :
  truthy v = true -> v = Some (or_else v EmptyString).
Proof. destruct v as [[|c s]|]; simpl; intros H; congruence. Qed.

Lemma activate_found (h : Host) (fuel : nat) (answers : list (option string))
    (w : World) :
  truthy (getServerPath h (files w)) = true ->
  activate h fuel answers w =
  startClient (or_else (getServerPath h (files w)) EmptyString) w.
Proof.
  intros H. destruct answers; simpl; run_task; now rewrite H.
Qed.

Lemma activate_not_found (h : Host) (fuel : nat) (choice : option string)
    (answers : list (option string)) (w : World) :
  truthy (getServerPath h (files w)) = false ->
  activate h fuel (choice :: answers) w =
  if bool_decide (choice = Some "Download") then
    match downloadServer h fuel (prompted w) with
    | None => None
    | Some (Throw e, w1) => Some (Throw e, w1)
    | Some (Return false, w1) =>
        emit (ErrorMessage "Failed to download luat-lsp. Please install manually.") w1
    | Some (Return true, w1) => activate h fuel answers w1
    end
  else Some (Return tt, prompted w).
Proof.
  intros H. simpl. run_task. rewrite H. simpl. fold (prompted w).
  destruct (bool_decide (choice = Some "Download")); [|reflexivity].
  destruct (downloadServer h fuel (prompted w)) as [[[[|]|e] w1]|]; reflexivity.
Qed.

(** C6. When the locator finds nothing and the user's answer to the prompt
    is anything but "Download", [activate] returns normally in a world that
    differs from the one it started in by the prompt alone: same files and
    directories, same session, same subscriptions, and a trace extended by
    the warning prompt only, so no request, no command and no error
    message. *)
Theorem activate_declined_no_side_effects (h : Host) (fuel : nat)
    (choice : option string) (answers : list (option string)) (w : World) :
  getServerPath h (files w) = None ->
  choice <> Some "Download" ->
  exists w',
    activate h fuel (choice :: answers) w = Some (Return tt, w')
    /\ files w' = files w
    /\ client w' = client w
    /\ subscriptions w' = subscriptions w
    /\ trace w' = trace w ++
         [WarningMessage
            "Luat language server not found. Would you like to download it?"
            ["Download"; "Cancel"]].
Proof.
  intros Hnone Hchoice. exists (prompted w).
  rewrite activate_not_found by now rewrite Hnone.
  rewrite bool_decide_eq_false_2 by assumption.
  repeat split.
Qed.

Lemma activate_declined_no_side_effects_witness :
  exists w',
    activate linux_host 2 [Some "Cancel"] empty_world = Some (Return tt, w')
    /\ files w' = files empty_world
    /\ client w' = client empty_world
    /\ subscriptions w' = subscriptions empty_world
    /\ trace w' = trace empty_world ++
         [WarningMessage
            "Luat language server not found. Would you like to download it?"
            ["Download"; "Cancel"]].
Proof.
  apply (activate_declined_no_side_effects linux_host 2 (Some "Cancel") []
           empty_world).
  - vm_compute. reflexivity.
  - discriminate.
Defined.

Lemma startClient_result (serverPath : string) (w : World) :
  startClient serverPath w =
  Some (Return tt,
        {| files := files w;
           client := Some {| run_command := serverPath;
                             debug_command := serverPath;
                             debug_RUST_LOG := "luat_lsp=debug";
                             state := Running |};
           subscriptions := subscriptions w ++
             [StatusBarItem "$(file-code) Luat" "Luat Language Server";
              RegisteredCommand "luat.restartServer";
              RegisteredCommand "luat.downloadServer"];
           trace := trace w ++ [FileSystemWatcher "**/*.luat"] |}).
Proof.
  unfold startClient. run_task. now rewrite <- !app_assoc.
Qed.

Lemma activate_client_from_locator (h : Host) (fuel : nat)
    (answers : list (option string)) :
  forall w r w',
    client w = None ->
    activate h fuel answers w = Some (r, w') ->
    forall c, client w' = Some c ->
      getServerPath h (files w') = Some (run_command c)
      /\ debug_command c = run_command c.
Proof.
  assert (Hfound : forall answers w r w' c,
             truthy (getServerPath h (files w)) = true ->
             activate h fuel answers w = Some (r, w') ->
             client w' = Some c ->
             getServerPath h (files w') = Some (run_command c)
             /\ debug_command c = run_command c).
  { intros answers' w r w' c Hp Hrun Hc'.
    rewrite (activate_found _ _ _ _ Hp), startClient_result in Hrun.
    injection Hrun as <- <-. simpl in *. injection Hc' as <-. simpl.
    split; [now apply truthy_Some | reflexivity]. }
  induction answers as [|choice answers IH]; intros w r w' Hc Hrun c Hc';
    destruct (truthy (getServerPath h (files w))) eqn:Hp;
    try (now apply (Hfound _ w r w' c Hp Hrun)).
  - simpl in Hrun. revert Hrun. run_task. now rewrite Hp.
  - rewrite (activate_not_found _ _ _ _ _ Hp) in Hrun.
    destruct (bool_decide (choice = Some "Download")).
    + destruct (downloadServer h fuel (prompted w)) as [[[[|]|e] w1]|] eqn:Hd;
        [| | |discriminate];
        pose proof (keeps_client_downloadServer h fuel _ _ _ Hd) as Hk;
        simpl in Hk; rewrite Hc in Hk.
      * now apply (IH w1 r w').
      * injection Hrun as <- <-. simpl in Hc'. congruence.
      * injection Hrun as <- <-. congruence.
    + injection Hrun as <- <-. simpl in Hc'. congruence.
Qed.

(** C7. In a run of [activate] that starts without a session and settles:
    the session it leaves, if any, runs the path the locator returns in the
    final world, for both launch profiles; and when the first locate finds
    nothing, the user answers "Download" and the download succeeds, the
    run is the run of [activate] itself, from its first step, in the world
    the download left. *)
Theorem activate_session_path_from_locator (h : Host) (fuel : nat)
    (answers : list (option string)) (w : World)
    (r : Completion unit) (w' : World) :
  client w = None ->
  activate h fuel answers w = Some (r, w') ->
  (forall c, client w' = Some c ->
     getServerPath h (files w') = Some (run_command c)
     /\ debug_command c = run_command c)
  /\ (forall rest w1,
        getServerPath h (files w) = None ->
        answers = Some "Download" :: rest ->
        downloadServer h fuel (prompted w) = Some (Return true, w1) ->
        activate h fuel rest w1 = Some (r, w')).
Proof.
  intros Hc Hrun. split.
  - now apply (activate_client_from_locator h fuel answers w r w').
  - intros rest w1 Hnone -> Hd.
    rewrite activate_not_found, Hd in Hrun by now rewrite Hnone.
    now rewrite bool_decide_eq_true_2 in Hrun.
Qed.

Lemma activate_session_path_from_locator_witness :
  (forall c, client installed_world = Some c ->
     getServerPath linux_host (files installed_world) = Some (run_command c)
     /\ debug_command c = run_command c)
  /\ client installed_world =
     Some {| run_command := "/home/dev/storage/server/luat-lsp";
             debug_command := "/home/dev/storage/server/luat-lsp";
             debug_RUST_LOG := "luat_lsp=debug";
             state := Running |}.
Proof.
  split.
  - apply (activate_session_path_from_locator linux_host 2 [Some "Download"]
             empty_world (Return tt) installed_world).
    + reflexivity.
    + vm_compute. reflexivity.
  - vm_compute. reflexivity.
Defined.

(** ** Client Supervisor *)

Lemma client_stop_idempotent (c : LanguageClient) :
  client_stop (client_stop c) = client_stop c.
Proof. destruct c as [? ? ? []]; reflexivity. Qed.

(** C8. [deactivate] with no session returns normally and changes nothing;
    with or without a session, two calls in a row both return normally, and
    the second one changes nothing. *)
Theorem deactivate_idempotent (w : World) :
  deactivate
    {| files := files w; client := None;
       subscriptions := subscriptions w; trace := trace w |}
  = Some (Return tt,
          {| files := files w; client := None;
             subscriptions := subscriptions w; trace := trace w |})
  /\ exists w1,
       deactivate w = Some (Return tt, w1)
       /\ deactivate w1 = Some (Return tt, w1)
       /\ files w1 = files w
       /\ client w1 = client_stop <$> client w.
Proof.
  split; [reflexivity|].
  destruct w as [fs [c|] subs tr]; unfold deactivate; run_task.
  - eexists; split; [reflexivity|]. simpl.
    rewrite client_stop_idempotent. repeat split.
  - eexists; split; [reflexivity|]. repeat split.
Qed.

(** Stopping a running session twice. *)
Example deactivate_twice_running :
  exists w1,
    deactivate running_world = Some (Return tt, w1)
    /\ (state <$> client w1) = Some Stopped
    /\ deactivate w1 = Some (Return tt, w1).
Proof. eexists. repeat split. Qed.







(** ** Artifact Installer *)

Lemma createWriteStream_result (dest : string) (w : World) :
  exists mode,
    createWriteStream dest w =
    Some (Return tt,
          {| files := <[dest := File EmptyString mode]> (files w);
             client := client w; subscriptions := subscriptions w;
             trace := trace w |}).
Proof.
  unfold createWriteStream. run_task.
  destruct (files w !! dest) as [[? mode|]|]; eexists; reflexivity.
Qed.

Lemma pipe_result (content dest : string) (w : World) (old : string) (mode : N) :
  files w !! dest = Some (File old mode) ->
  pipe content dest w =
  Some (Return tt,
        {| files := <[dest := File content mode]> (files w);
           client := client w; subscriptions := subscriptions w;
           trace := trace w |}).
Proof.
  intros H. unfold pipe. run_task. now rewrite H.
Qed.

Lemma request_final_response (h : Host) (fuel : nat) (dest url : string)
    (res : Response) (w : World) :
  https_get h url = Responded res ->
  statusCode res <> 301%Z ->
  statusCode res <> 302%Z ->
  request h (S fuel) dest url w =
  pipe (body res) dest
    {| files := files w; client := client w; subscriptions := subscriptions w;
       trace := trace w ++ [HttpsGet url] |}.
Proof.
  intros Hres H301 H302. simpl. run_task. rewrite Hres.
  apply Z.eqb_neq in H301, H302. now rewrite H301, H302.
Qed.

Lemma request_redirected (h : Host) (fuel : nat) (dest url target : string)
    (res : Response) (w : World) :
  https_get h url = Responded res ->
  ((statusCode res =? 302)%Z || (statusCode res =? 301)%Z) = true ->
  location res = Some target ->
  request h (S fuel) dest url w =
  request h fuel dest target
    {| files := files w; client := client w; subscriptions := subscriptions w;
       trace := trace w ++ [HttpsGet url] |}.
Proof.
  intros Hres Hstatus Hloc. simpl. run_task. now rewrite Hres, Hstatus, Hloc.
Qed.

Lemma request_follows (h : Host) (fuel : nat) (dest : string) (res : Response)
    (final old : string) (mode : N) :
  https_get h final = Responded res ->
  statusCode res <> 301%Z ->
  statusCode res <> 302%Z ->
  forall hops url w,
    follow h hops url = Some final ->
    files w !! dest = Some (File old mode) ->
    exists urls,
      request h (hops + S fuel) dest url w =
      Some (Return tt,
            {| files := <[dest := File (body res) mode]> (files w);
               client := client w; subscriptions := subscriptions w;
               trace := trace w ++ map HttpsGet urls |})
      /\ length urls = S hops
      /\ last urls = Some final.
Proof.
  intros Hres H301 H302.
  induction hops as [|hops IH]; intros url w Hfollow Hdest.
  - injection Hfollow as ->. exists [final].
    rewrite Nat.add_0_l, (request_final_response _ _ _ _ res) by assumption.
    rewrite (pipe_result _ _ _ old mode) by assumption.
    repeat split.
  - simpl in Hfollow.
    destruct (https_get h url) as [|r] eqn:Hurl; [discriminate|].
    destruct ((statusCode r =? 302)%Z || (statusCode r =? 301)%Z) eqn:Hstatus;
      [|discriminate].
    destruct (location r) as [target|] eqn:Hloc; [|discriminate].
    rewrite Nat.add_succ_l, (request_redirected _ _ _ _ target r) by assumption.
    destruct (IH target
                {| files := files w; client := client w;
                   subscriptions := subscriptions w;
                   trace := trace w ++ [HttpsGet url] |} Hfollow Hdest)
      as (urls & Hrun & Hlen & Hlast).
    exists (url :: urls). rewrite Hrun. simpl. rewrite <- app_assoc. simpl.
    repeat split; [now rewrite Hlen|].
    destruct urls; [discriminate | assumption].
Qed.

(** C9. Whatever the status code of a response, other than 301 and 302,
    be it the answer to the first request or to one made after following
    redirects, [downloadFile] resolves, and the destination file then holds
    the body of that response; the session and the subscriptions are as
    they were, and the only events are the requests, the last one for the
    URL that gave the response. *)
Theorem downloadFile_any_status_resolves (h : Host) (fuel hops : nat)
    (url final dest : string) (res : Response) (w : World) :
  follow h hops url = Some final ->
  https_get h final = Responded res ->
  statusCode res <> 301%Z ->
  statusCode res <> 302%Z ->
  exists w' mode urls,
    downloadFile h (hops + S fuel) url dest w = Some (Return tt, w')
    /\ files w' = <[dest := File (body res) mode]> (files w)
    /\ client w' = client w
    /\ subscriptions w' = subscriptions w
    /\ trace w' = trace w ++ map HttpsGet urls
    /\ last urls = Some final.
Proof.
  intros Hfollow Hres H301 H302.
  destruct (createWriteStream_result dest w) as [mode Hcreate].
  destruct (request_follows h fuel dest res final EmptyString mode
              Hres H301 H302 hops url
              {| files := <[dest := File EmptyString mode]> (files w);
                 client := client w; subscriptions := subscriptions w;
                 trace := trace w |} Hfollow (lookup_insert_eq _ _ _))
    as (urls & Hrun & _ & Hlast).
  eexists _, mode, urls.
  unfold downloadFile, mbind, task_bind. rewrite Hcreate. cbv beta iota.
  rewrite Hrun. split; [reflexivity|]. simpl.
  rewrite insert_insert_eq. repeat split. assumption.
Qed.

Lemma downloadFile_any_status_resolves_witness :
  exists w' mode urls,
    downloadFile linux_host_404 2 "https://example.org/linux-x64"
      "/home/dev/storage/server/a.tar.gz" empty_world = Some (Return tt, w')
    /\ files w' =
       <["/home/dev/storage/server/a.tar.gz" := File "Not Found" mode]>
         (files empty_world)
    /\ client w' = client empty_world
    /\ subscriptions w' = subscriptions empty_world
    /\ trace w' = trace empty_world ++ map HttpsGet urls
    /\ last urls = Some "https://cdn.example.org/linux-x64".
Proof.
  apply (downloadFile_any_status_resolves linux_host_404 0 1
           "https://example.org/linux-x64" "https://cdn.example.org/linux-x64"
           "/home/dev/storage/server/a.tar.gz"
           {| statusCode := 404; location := None; body := "Not Found" |}
           empty_world).
  - reflexivity.
  - reflexivity.
  - discriminate.
  - discriminate.
Defined.

(** On a host whose download URL answers 404, [downloadServer] takes the
    download for done and goes on to unpack the error page: the failure it
    reports is the one of [tar]. *)
Example downloadServer_404_reaches_extraction :
  exists w',
    downloadServer
      {| platform := "linux"; arch := "x64";
         env_PATH := None; env_CARGO_HOME := None; homedir := "/home/dev";
         config_server_path := None; globalStorage := "/home/dev/storage";
         path_join := join_segments;
         latest_release := ReleaseParsed (JRelease sample_release);
         https_get := https_404;
         exec := fun _ fs => (Throw "Error: Command failed: tar", fs) |}
      2 empty_world = Some (Return false, w')
    /\ last (trace w') = Some (ErrorMessage "Download failed: Error: Command failed: tar")
    /\ files w' !! "/home/dev/storage/server/luat-lsp-v0.2.0-x86_64-unknown-linux-gnu.tar.gz"
       = Some (File "Not Found" 420).
Proof. eexists. split; [vm_compute; reflexivity|]. split; vm_compute; reflexivity. Qed.

(** C10. On an archive path that ends in neither [.tar.gz] nor [.zip],
    [extractArchive] returns normally in the world it started in: no
    command is run, no file is touched, nothing is reported. *)
Theorem extractArchive_unrecognized_suffix (h : Host)
    (archivePath destDir : string) (w : World) :
  endsWith archivePath ".tar.gz" = false ->
  endsWith archivePath ".zip" = false ->
  extractArchive h archivePath destDir w = Some (Return tt, w).
Proof.
  intros Htgz Hzip. unfold extractArchive. now rewrite Htgz, Hzip.
Qed.

Lemma extractArchive_unrecognized_suffix_witness :
  extractArchive linux_host "/home/dev/storage/server/luat-lsp.tar.xz"
    "/home/dev/storage/server" empty_world
  = Some (Return tt, empty_world).
Proof.
  apply (extractArchive_unrecognized_suffix linux_host
           "/home/dev/storage/server/luat-lsp.tar.xz"
           "/home/dev/storage/server" empty_world).
  - reflexivity.
  - reflexivity.
Defined.

(** C4 at a failing input. The release archive unpacks the binary into a
    subdirectory: extraction completes, [chmodSync] throws on the missing
    binary, the [catch] block reports the failure, and [unlinkSync] is
    never reached, so the archive stays in the install directory. *)
Theorem downloadServer_chmod_failure_keeps_archive :
  exists w',
    downloadServer linux_host_nested 2 empty_world = Some (Return false, w')
    /\ In (ExecCommand
             ("tar -xzf " +:+ dquote
              +:+ "/home/dev/storage/server/luat-lsp-v0.2.0-x86_64-unknown-linux-gnu.tar.gz"
              +:+ dquote +:+ " -C " +:+ dquote +:+ "/home/dev/storage/server" +:+ dquote))
          (trace w')
    /\ existsSync (files w') "/home/dev/storage/server/luat-lsp-v0.2.0/luat-lsp" = true
    /\ last (trace w') =
       Some (ErrorMessage
               "Download failed: Error: ENOENT: no such file or directory, chmod '/home/dev/storage/server/luat-lsp'")
    /\ files w' !! "/home/dev/storage/server/luat-lsp-v0.2.0-x86_64-unknown-linux-gnu.tar.gz"
       = Some (File "TGZ" 420).
Proof.
  eexists. split; [vm_compute; reflexivity|].
  split; [vm_compute; tauto|].
  repeat split; vm_compute; reflexivity.
Qed.

(** When every step succeeds, the archive is gone and the binary is
    executable. *)
Example downloadServer_success_removes_archive :
  exists w',
    downloadServer linux_host 2 empty_world = Some (Return true, w')
    /\ files w' !! "/home/dev/storage/server/luat-lsp-v0.2.0-x86_64-unknown-linux-gnu.tar.gz"
       = None
    /\ files w' !! "/home/dev/storage/server/luat-lsp" = Some (File "ELF" 493).
Proof. eexists. split; [vm_compute; reflexivity|]. split; vm_compute; reflexivity. Qed.

(** * Further properties of the extension *)

(** ** Taking tasks apart *)

Lemma bind_Return_inv {A B} (m : Task A) (k : A -> Task B) (w : World)
    (b : B) (w' : World) :
  (m ≫= k) w = Some (Return b, w') ->
  exists a w1, m w = Some (Return a, w1) /\ k a w1 = Some (Return b, w').
Proof.
  unfold mbind, task_bind.
  destruct (m w) as [[[a|e] w1]|]; [eauto | discriminate..].
Qed.

Lemma emit_result (e : Event) (w : World) :
  emit e w =
  Some (Return tt,
        {| files := files w; client := client w;
           subscriptions := subscriptions w; trace := trace w ++ [e] |}).
Proof. reflexivity. Qed.

Lemma downloadServer_supported (h : Host) (fuel : nat) (target : string)
    (w : World) :
  getPlatformTarget h = Some target ->
  downloadServer h fuel w =
  match downloadServer_try h fuel target
          {| files := files w; client := client w;
             subscriptions := subscriptions w;
             trace := trace w ++
               [ProgressTitle "Downloading Luat language server..."] |} with
  | None => None
  | Some (Return downloaded, w1) => Some (Return downloaded, w1)
  | Some (Throw error, w1) =>
      Some (Return false,
            {| files := files w1; client := client w1;
               subscriptions := subscriptions w1;
               trace := trace w1 ++
                 [ErrorMessage ("Download failed: " +:+ error)] |})
  end.
Proof.
  intros Htarget. unfold downloadServer. rewrite Htarget.
  unfold mbind at 1. unfold task_bind. rewrite emit_result.
  unfold try_catch.
  destruct (downloadServer_try h fuel target _) as [[[b|e] w1]|]; reflexivity.
Qed.

Lemma downloadServer_unsupported (h : Host) (fuel : nat) (w : World) :
  getPlatformTarget h = None ->
  downloadServer h fuel w =
  Some (Return false,
        {| files := files w; client := client w;
           subscriptions := subscriptions w;
           trace := trace w ++
             [ErrorMessage ("Unsupported platform: " +:+ platform h
                            +:+ "-" +:+ arch h)] |}).
Proof.
  intros Htarget. unfold downloadServer. now rewrite Htarget.
Qed.

(** ** [downloadServer]: what it reports and what it leaves *)



(** X2. When the release lists no asset for the target, [downloadServer]
    returns false after the one release request, reports the target and the
    tag, and has not touched the file system: no install directory is
    made. *)
Theorem downloadServer_asset_not_found (h : Host) (fuel : nat)
    (target : string) (release : Release) (w : World) :
  getPlatformTarget h = Some target ->
  latest_release h = ReleaseParsed (JRelease release) ->
  selectAsset release target = None ->
  downloadServer h fuel w =
  Some (Return false,
        {| files := files w; client := client w;
           subscriptions := subscriptions w;
           trace := trace w ++
             [ProgressTitle "Downloading Luat language server...";
              ProgressReport "Fetching latest release...";
              HttpsGet "https://api.github.com/repos/maravilla-labs/luat-tools/releases/latest";
              ErrorMessage ("No binary found for " +:+ target
                            +:+ " in release " +:+ tag_name release)] |}).
Proof.
  intros Htarget Hrelease Hasset.
  rewrite (downloadServer_supported _ _ _ _ Htarget).
  unfold downloadServer_try, getLatestRelease. rewrite Hrelease.
  run_task. rewrite Hasset. simpl. now rewrite <- !app_assoc.
Qed.

Lemma downloadServer_asset_not_found_witness :
  downloadServer darwin_host 2 empty_world =
  Some (Return false,
        {| files := files empty_world; client := client empty_world;
           subscriptions := subscriptions empty_world;
           trace := trace empty_world ++
             [ProgressTitle "Downloading Luat language server...";
              ProgressReport "Fetching latest release...";
              HttpsGet "https://api.github.com/repos/maravilla-labs/luat-tools/releases/latest";
              ErrorMessage ("No binary found for " +:+ "aarch64-apple-darwin"
                            +:+ " in release " +:+ tag_name sample_release)] |}).
Proof.
  apply (downloadServer_asset_not_found darwin_host 2 "aarch64-apple-darwin"
           sample_release empty_world).
  - reflexivity.
  - reflexivity.
  - reflexivity.
Defined.

(** X3. When the release request fails, its body does not parse, or the
    parsed value is not a release, [downloadServer] returns false with one
    error message for the case at hand, after that one request and with the
    file system untouched. *)
Theorem downloadServer_release_failure (h : Host) (fuel : nat)
    (target : string) (w : World) :
  getPlatformTarget h = Some target ->
  (forall release, latest_release h <> ReleaseParsed (JRelease release)) ->
  downloadServer h fuel w =
  Some (Return false,
        {| files := files w; client := client w;
           subscriptions := subscriptions w;
           trace := trace w ++
             [ProgressTitle "Downloading Luat language server...";
              ProgressReport "Fetching latest release...";
              HttpsGet "https://api.github.com/repos/maravilla-labs/luat-tools/releases/latest";
              ErrorMessage (releaseFailureMessage (latest_release h))] |}).
Proof.
  intros Htarget Hrelease.
  rewrite (downloadServer_supported _ _ _ _ Htarget).
  unfold downloadServer_try, getLatestRelease.
  destruct (latest_release h) as [err| |[|release|]];
    try (now destruct (Hrelease release));
    run_task; now rewrite <- !app_assoc.
Qed.

Lemma downloadServer_release_failure_witness :
  downloadServer linux_host_no_release 2 empty_world =
  Some (Return false,
        {| files := files empty_world; client := client empty_world;
           subscriptions := subscriptions empty_world;
           trace := trace empty_world ++
             [ProgressTitle "Downloading Luat language server...";
              ProgressReport "Fetching latest release...";
              HttpsGet "https://api.github.com/repos/maravilla-labs/luat-tools/releases/latest";
              ErrorMessage
                (releaseFailureMessage (latest_release linux_host_no_release))] |}).
Proof.
  apply (downloadServer_release_failure linux_host_no_release 2
           "x86_64-unknown-linux-gnu" empty_world).
  - reflexivity.
  - discriminate.
Defined.

(** ** [activate] and the commands *)

(** X4. When the locator finds a server, [activate] neither prompts nor
    downloads, whatever the answers held ready: it leaves the files alone,
    sets the session to a running client whose two launch profiles run the
    located path, and subscribes the status bar item and the two
    commands. *)
Theorem activate_located_starts_client (h : Host) (fuel : nat)
    (answers : list (option string)) (w : World) (serverPath : string) :
  getServerPath h (files w) = Some serverPath ->
  serverPath <> EmptyString ->
  activate h fuel answers w =
  Some (Return tt,
        {| files := files w;
           client := Some {| run_command := serverPath;
                             debug_command := serverPath;
                             debug_RUST_LOG := "luat_lsp=debug";
                             state := Running |};
           subscriptions := subscriptions w ++
             [StatusBarItem "$(file-code) Luat" "Luat Language Server";
              RegisteredCommand "luat.restartServer";
              RegisteredCommand "luat.downloadServer"];
           trace := trace w ++ [FileSystemWatcher "**/*.luat"] |}).
Proof.
  intros Hpath Hne.
  rewrite activate_found, Hpath by (rewrite Hpath; now destruct serverPath).
  rewrite startClient_result. now destruct serverPath.
Qed.

Lemma activate_located_starts_client_witness :
  activate linux_host 0 [] located_world =
  Some (Return tt,
        {| files := files located_world;
           client := Some {| run_command := "/home/dev/storage/server/luat-lsp";
                             debug_command := "/home/dev/storage/server/luat-lsp";
                             debug_RUST_LOG := "luat_lsp=debug";
                             state := Running |};
           subscriptions := subscriptions located_world ++
             [StatusBarItem "$(file-code) Luat" "Luat Language Server";
              RegisteredCommand "luat.restartServer";
              RegisteredCommand "luat.downloadServer"];
           trace := trace located_world ++ [FileSystemWatcher "**/*.luat"] |}).
Proof.
  apply (activate_located_starts_client linux_host 0 [] located_world
           "/home/dev/storage/server/luat-lsp").
  - vm_compute. reflexivity.
  - discriminate.
Defined.

(** X5. On a platform that is not supported, accepting the download ends
    [activate] normally after two error messages, the one naming the
    platform pair and the one asking for a manual install: no request is
    made, no file is touched, no session is set, and the prompt is not
    shown again. *)
Theorem activate_unsupported_platform (h : Host) (fuel : nat)
    (answers : list (option string)) (w : World) :
  getServerPath h (files w) = None ->
  getPlatformTarget h = None ->
  activate h fuel (Some "Download" :: answers) w =
  Some (Return tt,
        {| files := files w; client := client w;
           subscriptions := subscriptions w;
           trace := trace w ++
             [WarningMessage
                "Luat language server not found. Would you like to download it?"
                ["Download"; "Cancel"];
              ErrorMessage ("Unsupported platform: " +:+ platform h
                            +:+ "-" +:+ arch h);
              ErrorMessage "Failed to download luat-lsp. Please install manually."] |}).
Proof.
  intros Hpath Htarget.
  rewrite activate_not_found by now rewrite Hpath.
  rewrite bool_decide_eq_true_2 by reflexivity.
  rewrite (downloadServer_unsupported _ _ _ Htarget), emit_result. simpl.
  now rewrite <- !app_assoc.
Qed.

Lemma activate_unsupported_platform_witness :
  activate linux_arm_host 2 [Some "Download"] empty_world =
  Some (Return tt,
        {| files := files empty_world; client := client empty_world;
           subscriptions := subscriptions empty_world;
           trace := trace empty_world ++
             [WarningMessage
                "Luat language server not found. Would you like to download it?"
                ["Download"; "Cancel"];
              ErrorMessage ("Unsupported platform: " +:+ platform linux_arm_host
                            +:+ "-" +:+ arch linux_arm_host);
              ErrorMessage "Failed to download luat-lsp. Please install manually."] |}).
Proof.
  apply (activate_unsupported_platform linux_arm_host 2 [] empty_world).
  - vm_compute. reflexivity.
  - reflexivity.
Defined.

(** X6. The download command never rejects and never touches the session,
    so a running server keeps running; it adds the message that asks for a
    restart exactly when the download returned true, and nothing
    otherwise. *)
Theorem downloadServerCommand_keeps_session (h : Host) (fuel : nat)
    (w : World) (r : Completion unit) (w' : World) :
  downloadServerCommand h fuel w = Some (r, w') ->
  r = Return tt
  /\ client w' = client w
  /\ exists downloaded w1,
       downloadServer h fuel w = Some (Return downloaded, w1)
       /\ files w' = files w1
       /\ trace w' =
          trace w1 ++
          (if downloaded
           then [InformationMessage
                   "Luat language server downloaded. Restart to use it."]
           else []).
Proof.
  unfold downloadServerCommand, mbind, task_bind. intros Hrun.
  destruct (downloadServer h fuel w) as [[[downloaded|e] w1]|] eqn:Hd;
    [| |discriminate].
  - pose proof (keeps_client_downloadServer h fuel _ _ _ Hd) as Hk.
    destruct downloaded; injection Hrun as <- <-; simpl;
      (split; [reflexivity|]); (split; [assumption|]);
      eexists _, w1; (split; [reflexivity|]); split; try reflexivity.
    now rewrite app_nil_r.
  - destruct (getPlatformTarget h) as [target|] eqn:Htarget.
    + rewrite (downloadServer_supported _ _ _ _ Htarget) in Hd.
      destruct (downloadServer_try h fuel target _) as [[[?|?] ?]|];
        discriminate.
    + rewrite (downloadServer_unsupported _ _ _ Htarget) in Hd. discriminate.
Qed.

Lemma downloadServerCommand_keeps_session_witness :
  Return tt = Return tt
  /\ client (world_after (downloadServerCommand linux_host 2) running_world)
     = client running_world
  /\ exists downloaded w1,
       downloadServer linux_host 2 running_world = Some (Return downloaded, w1)
       /\ files (world_after (downloadServerCommand linux_host 2) running_world)
          = files w1
       /\ trace (world_after (downloadServerCommand linux_host 2) running_world) =
          trace w1 ++
          (if downloaded
           then [InformationMessage
                   "Luat language server downloaded. Restart to use it."]
           else []).
Proof.
  apply (downloadServerCommand_keeps_session linux_host 2 running_world
           (Return tt)
           (world_after (downloadServerCommand linux_host 2) running_world)).
  vm_compute. reflexivity.
Defined.

(** ** [downloadFile]: redirects and request errors *)

Lemma request_hops (h : Host) (dest final : string) :
  forall hops fuel url w,
    follow h hops url = Some final ->
    exists urls,
      length urls = hops
      /\ request h (hops + fuel) dest url w =
         request h fuel dest final
           {| files := files w; client := client w;
              subscriptions := subscriptions w;
              trace := trace w ++ map HttpsGet urls |}.
Proof.
  induction hops as [|hops IH]; intros fuel url w Hfollow.
  - injection Hfollow as ->. exists []. simpl. rewrite app_nil_r.
    now destruct w.
  - simpl in Hfollow.
    destruct (https_get h url) as [|r] eqn:Hurl; [discriminate|].
    destruct ((statusCode r =? 302)%Z || (statusCode r =? 301)%Z) eqn:Hstatus;
      [|discriminate].
    destruct (location r) as [target|] eqn:Hloc; [|discriminate].
    rewrite Nat.add_succ_l, (request_redirected _ _ _ _ target r) by assumption.
    destruct (IH fuel target
                {| files := files w; client := client w;
                   subscriptions := subscriptions w;
                   trace := trace w ++ [HttpsGet url] |} Hfollow)
      as (urls & Hlen & Hrun).
    exists (url :: urls). rewrite Hrun. simpl. rewrite <- app_assoc.
    split; [now rewrite Hlen | reflexivity].
Qed.

Lemma request_error (h : Host) (fuel : nat) (dest url err old : string)
    (mode : N) (w : World) :
  https_get h url = RequestError err ->
  files w !! dest = Some (File old mode) ->
  request h (S fuel) dest url w =
  Some (Throw err,
        {| files := delete dest (files w); client := client w;
           subscriptions := subscriptions w;
           trace := trace w ++ [HttpsGet url] |}).
Proof.
  intros Hurl Hdest. simpl. run_task. rewrite Hurl.
  unfold unlink_ignored, unlinkSync. run_task. now rewrite Hdest.
Qed.

(** X7. When a request fails, be it the first or one made after following
    redirects, [downloadFile] rejects with that error and the destination
    file is gone: the file system is the one before the call with the
    destination removed, so a file that was there before is lost too. *)
Theorem downloadFile_request_error_removes_dest (h : Host) (fuel hops : nat)
    (url final dest err : string) (w : World) :
  follow h hops url = Some final ->
  https_get h final = RequestError err ->
  exists w',
    downloadFile h (hops + S fuel) url dest w = Some (Throw err, w')
    /\ files w' = delete dest (files w)
    /\ files w' !! dest = None
    /\ client w' = client w
    /\ subscriptions w' = subscriptions w.
Proof.
  intros Hfollow Herr.
  destruct (createWriteStream_result dest w) as [mode Hcreate].
  destruct (request_hops h dest final hops (S fuel) url
              {| files := <[dest := File EmptyString mode]> (files w);
                 client := client w; subscriptions := subscriptions w;
                 trace := trace w |} Hfollow) as (urls & _ & Hrun).
  unfold downloadFile, mbind, task_bind. rewrite Hcreate. cbv beta iota.
  rewrite Hrun.
  rewrite (request_error _ _ _ _ err EmptyString mode)
    by (assumption || apply lookup_insert_eq).
  eexists. split; [reflexivity|]. simpl.
  rewrite delete_insert_eq. repeat split. apply lookup_delete_eq.
Qed.

Lemma downloadFile_request_error_removes_dest_witness :
  exists w',
    downloadFile linux_host_down 1 "https://example.org/linux-x64"
      "/home/dev/storage/server/luat-lsp" located_world
    = Some (Throw "Error: connect ECONNREFUSED", w')
    /\ files w' = delete "/home/dev/storage/server/luat-lsp" (files located_world)
    /\ files w' !! "/home/dev/storage/server/luat-lsp" = None
    /\ client w' = client located_world
    /\ subscriptions w' = subscriptions located_world.
Proof.
  apply (downloadFile_request_error_removes_dest linux_host_down 0 0
           "https://example.org/linux-x64" "https://example.org/linux-x64"
           "/home/dev/storage/server/luat-lsp" "Error: connect ECONNREFUSED"
           located_world).
  - reflexivity.
  - reflexivity.
Defined.

(** X8. Redirects are followed without a bound: from a URL inside a set of
    URLs that all answer 301 or 302 with a location inside the set again (a
    redirect loop, say), [downloadFile] does not settle, however many hops
    are followed. *)
Theorem downloadFile_redirect_loop_never_settles (h : Host)
    (inside : string -> Prop) (fuel : nat) (url dest : string) (w : World) :
  (forall u, inside u ->
     exists res target,
       https_get h u = Responded res
       /\ isRedirect res = true
       /\ location res = Some target
       /\ inside target) ->
  inside url ->
  downloadFile h fuel url dest w = None.
Proof.
  intros Hclosed Hurl.
  assert (Hreq : forall fuel u w, inside u -> request h fuel dest u w = None).
  { clear fuel url w Hurl.
    induction fuel as [|fuel IH]; intros u w Hu; [reflexivity|].
    destruct (Hclosed u Hu) as (res & target & Hres & Hred & Hloc & Ht).
    unfold isRedirect in Hred.
    rewrite (request_redirected _ _ _ _ target res) by assumption.
    now apply IH. }
  destruct (createWriteStream_result dest w) as [mode Hcreate].
  unfold downloadFile, mbind, task_bind. rewrite Hcreate. cbv beta iota.
  now apply Hreq.
Qed.

Lemma downloadFile_redirect_loop_never_settles_witness :
  downloadFile linux_host_loop 50 "https://example.org/linux-x64"
    "/home/dev/storage/server/a.tar.gz" empty_world = None.
Proof.
  apply (downloadFile_redirect_loop_never_settles linux_host_loop
           (fun u => u = "https://example.org/linux-x64") 50
           "https://example.org/linux-x64"
           "/home/dev/storage/server/a.tar.gz" empty_world).
  - intros u ->.
    exists {| statusCode := 301;
              location := Some "https://example.org/linux-x64";
              body := EmptyString |}, "https://example.org/linux-x64".
    repeat split.
  - reflexivity.
Defined.

(** ** Extraction and installation *)

Lemma append_assoc (a b c : string) : (a +:+ b) +:+ c = a +:+ b +:+ c.
Proof.
  induction a as [|x a IH]; [reflexivity|].
  change (String x ((a +:+ b) +:+ c) = String x (a +:+ b +:+ c)).
  now rewrite IH.
Qed.

Lemma endsWith_append (front s suffix : string) :
  endsWith s suffix = true -> endsWith (front +:+ s) suffix = true.
Proof.
  rewrite !endsWith_spec. intros [f ->]. exists (front +:+ f).
  now rewrite append_assoc.
Qed.

Lemma execAsync_result (h : Host) (cmd : string) (w : World) :
  execAsync h cmd w =
  Some (fst (exec h cmd (files w)),
        {| files := snd (exec h cmd (files w)); client := client w;
           subscriptions := subscriptions w;
           trace := trace w ++ [ExecCommand cmd] |}).
Proof.
  unfold execAsync. run_task.
  destruct (exec h cmd (files w)) as [[[]|e] fs']; reflexivity.
Qed.

Lemma extractArchive_recognized (h : Host) (archivePath destDir : string)
    (w : World) :
  endsWith archivePath ".tar.gz" || endsWith archivePath ".zip" = true ->
  extractArchive h archivePath destDir w =
  execAsync h (extractCommand h archivePath destDir) w.
Proof.
  unfold extractArchive, extractCommand. intros H.
  destruct (endsWith archivePath ".tar.gz"); [reflexivity|].
  simpl in H. rewrite H. now destruct (String.eqb (platform h) "win32").
Qed.

Lemma selectAsset_matches (release : Release) (target : string) (asset : Asset) :
  selectAsset release target = Some asset ->
  isMatchingAsset (assetName release target) asset = true.
Proof.
  unfold selectAsset. rewrite array_find_Some.
  now intros (_ & _ & _ & H & _).
Qed.

(** X9. For an asset that [downloadServer] selects, and an archive path
    that ends with the asset's name, [extractArchive] never takes its silent
    path: it runs one command ([tar] for [.tar.gz]; for [.zip], PowerShell
    on win32 and [unzip] elsewhere), settles the way the command does, and
    leaves the file system the command left. *)
Theorem extractArchive_selected_asset_runs_command (h : Host)
    (release : Release) (target : string) (asset : Asset)
    (front archivePath destDir : string) (w : World) :
  selectAsset release target = Some asset ->
  archivePath = front +:+ name asset ->
  extractArchive h archivePath destDir w =
  Some (fst (exec h (extractCommand h archivePath destDir) (files w)),
        {| files := snd (exec h (extractCommand h archivePath destDir) (files w));
           client := client w;
           subscriptions := subscriptions w;
           trace := trace w ++ [ExecCommand (extractCommand h archivePath destDir)] |}).
Proof.
  intros Hsel ->. apply selectAsset_matches in Hsel.
  unfold isMatchingAsset in Hsel. apply andb_true_iff in Hsel as [_ Hsuf].
  rewrite extractArchive_recognized, execAsync_result; [reflexivity|].
  apply orb_true_iff in Hsuf as [H|H];
    apply (endsWith_append front) in H; rewrite H; [reflexivity|].
  apply orb_true_r.
Qed.

Lemma chmodSync_Return_inv (p : string) (mode : N) (w : World) (u : unit)
    (w' : World) :
  chmodSync p mode w = Some (Return u, w') ->
  exists node,
    files w !! p = Some node
    /\ files w' = match node with
                  | File content _ => <[p := File content mode]> (files w)
                  | Dir => files w
                  end.
Proof.
  unfold chmodSync. run_task.
  destruct (files w !! p) as [[content old|]|]; intros H; inversion H; eauto.
Qed.

Lemma unlinkSync_Return_inv (p : string) (w : World) (u : unit) (w' : World) :
  unlinkSync p w = Some (Return u, w') ->
  files w' = delete p (files w).
Proof.
  unfold unlinkSync. run_task.
  destruct (files w !! p) as [[content old|]|]; intros H; now inversion H.
Qed.

Lemma downloadServer_true_inv (h : Host) (fuel : nat) (w w' : World) :
  downloadServer h fuel w = Some (Return true, w') ->
  exists target release asset w3 w4,
    getPlatformTarget h = Some target
    /\ latest_release h = ReleaseParsed (JRelease release)
    /\ selectAsset release target = Some asset
    /\ (if negb (String.eqb (platform h) "win32") then
          chmodSync
            (path_join h [path_join h [globalStorage h; "server"]; BINARY_NAME h])
            493
        else mret tt) w3 = Some (Return tt, w4)
    /\ unlinkSync
         (path_join h [path_join h [globalStorage h; "server"]; name asset]) w4
       = Some (Return tt, w').
Proof.
  intros Hrun.
  destruct (getPlatformTarget h) as [target|] eqn:Htarget;
    [|rewrite (downloadServer_unsupported _ _ _ Htarget) in Hrun; discriminate].
  rewrite (downloadServer_supported _ _ _ _ Htarget) in Hrun.
  destruct (downloadServer_try h fuel target _) as [[[b|e] w1]|] eqn:Htry;
    [|discriminate..].
  injection Hrun as -> ->. exists target.
  unfold downloadServer_try in Htry.
  apply bind_Return_inv in Htry as (_ & w2 & _ & Htry).
  apply bind_Return_inv in Htry as (j & w5 & Hrel & Htry).
  unfold getLatestRelease in Hrel.
  apply bind_Return_inv in Hrel as (_ & w6 & _ & Hrel).
  destruct (latest_release h) as [err| |j'] eqn:Hreply; [discriminate..|].
  injection Hrel as -> ->.
  destruct j as [|release|]; [discriminate| |discriminate].
  exists release.
  destruct (selectAsset release target) as [asset|] eqn:Hsel; [|discriminate].
  exists asset.
  apply bind_Return_inv in Htry as (_ & w7 & _ & Htry).
  apply bind_Return_inv in Htry as (_ & w8 & _ & Htry).
  apply bind_Return_inv in Htry as (_ & w9 & _ & Htry).
  apply bind_Return_inv in Htry as (_ & w10 & _ & Htry).
  apply bind_Return_inv in Htry as (_ & w3 & _ & Htry).
  apply bind_Return_inv in Htry as ([] & w4 & Hchmod & Htry).
  apply bind_Return_inv in Htry as ([] & w11 & Hunlink & Htry).
  injection Htry as <-.
  exists w3, w4. repeat split; assumption.
Qed.

Lemma install_tail_files (h : Host) (binaryPath archivePath : string)
    (w3 w4 w' : World) :
  (if negb (String.eqb (platform h) "win32") then chmodSync binaryPath 493
   else mret tt) w3 = Some (Return tt, w4) ->
  unlinkSync archivePath w4 = Some (Return tt, w') ->
  files w' !! archivePath = None
  /\ (platform h <> "win32" ->
      binaryPath <> archivePath ->
      exists node,
        files w' !! binaryPath = Some node
        /\ forall content mode, node = File content mode -> mode = 493%N).
Proof.
  intros Hchmod Hunlink.
  apply unlinkSync_Return_inv in Hunlink. rewrite Hunlink.
  split; [apply lookup_delete_eq|].
  intros Hwin Hne. apply String.eqb_neq in Hwin. rewrite Hwin in Hchmod.
  simpl in Hchmod. apply chmodSync_Return_inv in Hchmod as (node & Hnode & Hfs).
  rewrite lookup_delete_ne, Hfs by congruence.
  destruct node as [content old|].
  - rewrite lookup_insert_eq. eexists. split; [reflexivity|]. congruence.
  - exists Dir. split; [assumption | discriminate].
Qed.

(** X10. When [downloadServer] returns true, a release was fetched, an
    asset was selected for the platform's target, and the archive is no
    longer in the install directory; on a platform other than win32, where
    the binary path differs from the archive path, the binary path exists,
    and if it is a file its mode is 0o755. *)
Theorem downloadServer_true_installs (h : Host) (fuel : nat) (w w' : World) :
  downloadServer h fuel w = Some (Return true, w') ->
  exists target release asset,
    getPlatformTarget h = Some target
    /\ latest_release h = ReleaseParsed (JRelease release)
    /\ selectAsset release target = Some asset
    /\ files w' !! path_join h [path_join h [globalStorage h; "server"]; name asset]
       = None
    /\ (platform h <> "win32" ->
        path_join h [path_join h [globalStorage h; "server"]; BINARY_NAME h]
        <> path_join h [path_join h [globalStorage h; "server"]; name asset] ->
        exists node,
          files w' !! path_join h [path_join h [globalStorage h; "server"];
                                   BINARY_NAME h] = Some node
          /\ forall content mode, node = File content mode -> mode = 493%N).
Proof.
  intros Hrun.
  apply downloadServer_true_inv in Hrun
    as (target & release & asset & w3 & w4 & Ht & Hr & Hs & Hchmod & Hunlink).
  exists target, release, asset. repeat (split; [assumption|]).
  now apply (install_tail_files h _ _ w3 w4 w').
Qed.

Lemma getServerPath_exists (h : Host) (fs : FS) (p : string) :
  getServerPath h fs = Some p -> existsSync fs p = true.
Proof.
  rewrite getServerPath_find, array_find_Some.
  now intros (_ & _ & _ & H & _).
Qed.

Lemma getServerPath_storage (h : Host) (fs : FS) :
  existsSync fs (path_join h [globalStorage h; "server"; BINARY_NAME h]) = true ->
  path_join h [globalStorage h; "server"; BINARY_NAME h] <> EmptyString ->
  truthy (getServerPath h fs) = true.
Proof.
  intros Hex Hne. unfold getServerPath.
  destruct (truthy (config_server_path h)
            && existsSync fs (or_else (config_server_path h) EmptyString)) eqn:Hcfg.
  - now apply andb_true_iff in Hcfg as [? _].
  - rewrite Hex. simpl.
    now destruct (path_join h [globalStorage h; "server"; BINARY_NAME h]).
Qed.

(** X11. On a platform other than win32, when the locator finds nothing,
    the user accepts and the download returns true, [activate] ends
    normally with a session on the path the locator returns after the
    install, which exists. The prompt is shown once: the trace of the run
    is that one prompt, the events of the download, none of them a prompt,
    and the file watcher of the client. [path.join] is assumed to give the
    storage candidate the same path whether joined in one call or two, a
    non-empty one, that differs from the archive path. *)
Theorem activate_install_then_start (h : Host) (fuel : nat)
    (answers : list (option string)) (w w1 : World)
    (target : string) (release : Release) (asset : Asset) :
  getServerPath h (files w) = None ->
  downloadServer h fuel (prompted w) = Some (Return true, w1) ->
  getPlatformTarget h = Some target ->
  latest_release h = ReleaseParsed (JRelease release) ->
  selectAsset release target = Some asset ->
  platform h <> "win32" ->
  path_join h [path_join h [globalStorage h; "server"]; BINARY_NAME h]
  <> path_join h [path_join h [globalStorage h; "server"]; name asset] ->
  path_join h [path_join h [globalStorage h; "server"]; BINARY_NAME h]
  = path_join h [globalStorage h; "server"; BINARY_NAME h] ->
  path_join h [globalStorage h; "server"; BINARY_NAME h] <> EmptyString ->
  exists serverPath events,
    getServerPath h (files w1) = Some serverPath
    /\ existsSync (files w1) serverPath = true
    /\ forallb (fun e => negb (isPrompt e)) events = true
    /\ trace w1 =
       trace w ++
       [WarningMessage
          "Luat language server not found. Would you like to download it?"
          ["Download"; "Cancel"]] ++ events
    /\ activate h fuel (Some "Download" :: answers) w =
       Some (Return tt,
             {| files := files w1;
                client := Some {| run_command := serverPath;
                                  debug_command := serverPath;
                                  debug_RUST_LOG := "luat_lsp=debug";
                                  state := Running |};
                subscriptions := subscriptions w ++
                  [StatusBarItem "$(file-code) Luat" "Luat Language Server";
                   RegisteredCommand "luat.restartServer";
                   RegisteredCommand "luat.downloadServer"];
                trace := trace w ++
                  [WarningMessage
                     "Luat language server not found. Would you like to download it?"
                     ["Download"; "Cancel"]]
                  ++ events ++ [FileSystemWatcher "**/*.luat"] |}).
Proof.
  intros Hnone Hd Ht Hr Hs Hwin Hne Hassoc Hnonempty.
  rewrite activate_not_found, Hd by now rewrite Hnone.
  rewrite bool_decide_eq_true_2 by reflexivity.
  destruct (background_downloadServer h fuel _ _ _ Hd)
    as (_ & Hsubs & events & Htrace & Hquiet).
  simpl in Hsubs, Htrace.
  apply downloadServer_true_inv in Hd
    as (target' & release' & asset' & w3 & w4 & Ht' & Hr' & Hs' & Hchmod & Hunlink).
  assert (target' = target) as -> by congruence.
  assert (release' = release) as -> by congruence.
  assert (asset' = asset) as -> by congruence.
  destruct (install_tail_files h _ _ w3 w4 w1 Hchmod Hunlink) as [_ Hbin].
  destruct (Hbin Hwin Hne) as (node & Hnode & _).
  rewrite Hassoc in Hnode.
  assert (Hfound : truthy (getServerPath h (files w1)) = true).
  { apply getServerPath_storage; [|assumption]. unfold existsSync. now rewrite Hnode. }
  pose proof (truthy_Some _ Hfound) as Hpath.
  exists (or_else (getServerPath h (files w1)) EmptyString), events.
  split; [assumption|].
  split; [now apply (getServerPath_exists h)|].
  split; [assumption|].
  split; [now rewrite Htrace, <- app_assoc|].
  rewrite (activate_found _ _ _ _ Hfound), startClient_result.
  now rewrite Hsubs, Htrace, <- !app_assoc.
Qed.

Lemma activate_install_then_start_witness :
  exists serverPath events,
    getServerPath linux_host
      (files (world_after (downloadServer linux_host 2) (prompted empty_world)))
    = Some serverPath
    /\ existsSync
         (files (world_after (downloadServer linux_host 2) (prompted empty_world)))
         serverPath = true
    /\ forallb (fun e => negb (isPrompt e)) events = true
    /\ trace (world_after (downloadServer linux_host 2) (prompted empty_world)) =
       trace empty_world ++
       [WarningMessage
          "Luat language server not found. Would you like to download it?"
          ["Download"; "Cancel"]] ++ events
    /\ activate linux_host 2 [Some "Download"] empty_world =
       Some (Return tt,
             {| files :=
                  files (world_after (downloadServer linux_host 2)
                           (prompted empty_world));
                client := Some {| run_command := serverPath;
                                  debug_command := serverPath;
                                  debug_RUST_LOG := "luat_lsp=debug";
                                  state := Running |};
                subscriptions := subscriptions empty_world ++
                  [StatusBarItem "$(file-code) Luat" "Luat Language Server";
                   RegisteredCommand "luat.restartServer";
                   RegisteredCommand "luat.downloadServer"];
                trace := trace empty_world ++
                  [WarningMessage
                     "Luat language server not found. Would you like to download it?"
                     ["Download"; "Cancel"]]
                  ++ events ++ [FileSystemWatcher "**/*.luat"] |}).
Proof.
  apply (activate_install_then_start linux_host 2 [] empty_world
           (world_after (downloadServer linux_host 2) (prompted empty_world))
           "x86_64-unknown-linux-gnu" sample_release
           {| name := "luat-lsp-v0.2.0-x86_64-unknown-linux-gnu.tar.gz";
              browser_download_url := "https://example.org/linux-x64" |}).
  - vm_compute. reflexivity.
  - vm_compute. reflexivity.
  - reflexivity.
  - reflexivity.
  - reflexivity.
  - discriminate.
  - vm_compute. discriminate.
  - reflexivity.
  - vm_compute. discriminate.
Defined.

Lemma downloadServer_true_installs_witness :
  exists target release asset,
    getPlatformTarget linux_host = Some target
    /\ latest_release linux_host = ReleaseParsed (JRelease release)
    /\ selectAsset release target = Some asset
    /\ files (world_after (downloadServer linux_host 2) empty_world)
         !! path_join linux_host
              [path_join linux_host [globalStorage linux_host; "server"]; name asset]
       = None
    /\ (platform linux_host <> "win32" ->
        path_join linux_host
          [path_join linux_host [globalStorage linux_host; "server"];
           BINARY_NAME linux_host]
        <> path_join linux_host
             [path_join linux_host [globalStorage linux_host; "server"]; name asset] ->
        exists node,
          files (world_after (downloadServer linux_host 2) empty_world)
            !! path_join linux_host
                 [path_join linux_host [globalStorage linux_host; "server"];
                  BINARY_NAME linux_host] = Some node
          /\ forall content mode, node = File content mode -> mode = 493%N).
Proof.
  apply (downloadServer_true_installs linux_host 2 empty_world
           (world_after (downloadServer linux_host 2) empty_world)).
  vm_compute. reflexivity.
Defined.

Lemma downloadServer_try_selected (h : Host) (fuel : nat) (target : string)
    (release : Release) (asset : Asset) (w : World) :
  latest_release h = ReleaseParsed (JRelease release) ->
  selectAsset release target = Some asset ->
  (forall content mode,
     files w !! path_join h [globalStorage h; "server"] <> Some (File content mode)) ->
  downloadServer_try h fuel target w =
  (downloadFile h fuel (browser_download_url asset)
     (path_join h [path_join h [globalStorage h; "server"]; name asset]);;
   emit (ProgressReport "Extracting...");;
   extractArchive h
     (path_join h [path_join h [globalStorage h; "server"]; name asset])
     (path_join h [globalStorage h; "server"]);;
   (if negb (String.eqb (platform h) "win32") then
      chmodSync
        (path_join h [path_join h [globalStorage h; "server"]; BINARY_NAME h]) 493
    else mret tt);;
   unlinkSync (path_join h [path_join h [globalStorage h; "server"]; name asset]);;
   mret true)
    {| files := <[path_join h [globalStorage h; "server"] := Dir]> (files w);
       client := client w; subscriptions := subscriptions w;
       trace := trace w ++
         [ProgressReport "Fetching latest release...";
          HttpsGet "https://api.github.com/repos/maravilla-labs/luat-tools/releases/latest";
          ProgressReport ("Downloading " +:+ name asset +:+ "...")] |}.
Proof.
  intros Hr Hs Hdir.
  unfold downloadServer_try, getLatestRelease, mkdirSync_recursive.
  rewrite Hr. unfold mbind, task_bind, mret, task_ret, emit, get_files, set_files.
  cbv beta iota. rewrite Hs. simpl.
  destruct (files w !! path_join h [globalStorage h; "server"])
    as [[content mode|]|] eqn:Hlook.
  - now destruct (Hdir content mode).
  - rewrite (insert_id (files w) _ Dir) by assumption.
    rewrite <- !app_assoc. reflexivity.
  - rewrite <- !app_assoc. reflexivity.
Qed.

Lemma downloadFile_error_result (h : Host) (fuel hops : nat)
    (url final dest err : string) (w : World) :
  follow h hops url = Some final ->
  https_get h final = RequestError err ->
  exists urls,
    downloadFile h (hops + S fuel) url dest w =
    Some (Throw err,
          {| files := delete dest (files w); client := client w;
             subscriptions := subscriptions w;
             trace := trace w ++ map HttpsGet urls |}).
Proof.
  intros Hfollow Herr.
  destruct (createWriteStream_result dest w) as [mode Hcreate].
  destruct (request_hops h dest final hops (S fuel) url
              {| files := <[dest := File EmptyString mode]> (files w);
                 client := client w; subscriptions := subscriptions w;
                 trace := trace w |} Hfollow) as (urls & _ & Hrun).
  unfold downloadFile, mbind, task_bind. rewrite Hcreate. cbv beta iota.
  rewrite Hrun.
  rewrite (request_error _ _ _ _ err EmptyString mode)
    by (assumption || apply lookup_insert_eq).
  exists (urls ++ [final]). simpl.
  now rewrite delete_insert_eq, map_app, app_assoc.
Qed.

Lemma downloadFile_final_result (h : Host) (fuel hops : nat)
    (url final dest : string) (res : Response) (w : World) :
  follow h hops url = Some final ->
  https_get h final = Responded res ->
  statusCode res <> 301%Z ->
  statusCode res <> 302%Z ->
  exists mode urls,
    downloadFile h (hops + S fuel) url dest w =
    Some (Return tt,
          {| files := <[dest := File (body res) mode]> (files w);
             client := client w; subscriptions := subscriptions w;
             trace := trace w ++ map HttpsGet urls |}).
Proof.
  intros Hfollow Hres H301 H302.
  destruct (createWriteStream_result dest w) as [mode Hcreate].
  destruct (request_follows h fuel dest res final EmptyString mode
              Hres H301 H302 hops url
              {| files := <[dest := File EmptyString mode]> (files w);
                 client := client w; subscriptions := subscriptions w;
                 trace := trace w |} Hfollow (lookup_insert_eq _ _ _))
    as (urls & Hrun & _ & _).
  exists mode, urls.
  unfold downloadFile, mbind, task_bind. rewrite Hcreate. cbv beta iota.
  rewrite Hrun. simpl. now rewrite insert_insert_eq.
Qed.

(** X12. When the request for the selected asset fails, directly or after
    redirects, [downloadServer] returns false and reports the error; the
    install directory has been made, and no archive is left in it. *)
Theorem downloadServer_request_error_leaves_no_archive (h : Host)
    (fuel hops : nat) (target final err : string) (release : Release)
    (asset : Asset) (w : World) :
  getPlatformTarget h = Some target ->
  latest_release h = ReleaseParsed (JRelease release) ->
  selectAsset release target = Some asset ->
  (forall content mode,
     files w !! path_join h [globalStorage h; "server"] <> Some (File content mode)) ->
  follow h hops (browser_download_url asset) = Some final ->
  https_get h final = RequestError err ->
  exists w',
    downloadServer h (hops + S fuel) w = Some (Return false, w')
    /\ files w' =
       delete (path_join h [path_join h [globalStorage h; "server"]; name asset])
         (<[path_join h [globalStorage h; "server"] := Dir]> (files w))
    /\ files w' !! path_join h [path_join h [globalStorage h; "server"]; name asset]
       = None
    /\ last (trace w') = Some (ErrorMessage ("Download failed: " +:+ err)).
Proof.
  intros Ht Hr Hs Hdir Hfollow Herr.
  rewrite (downloadServer_supported _ _ _ _ Ht).
  rewrite (downloadServer_try_selected _ _ _ release asset) by assumption.
  match goal with
  | |- context [downloadFile h ?f ?u ?d] =>
      match goal with
      | |- context [(_ ;; _) ?w0] =>
          destruct (downloadFile_error_result h fuel hops u final d err w0
                      Hfollow Herr) as (urls & Hdl)
      end
  end.
  unfold mbind at 1. unfold task_bind. rewrite Hdl.
  eexists. split; [reflexivity|]. simpl.
  repeat split; [apply lookup_delete_eq | apply last_snoc].
Qed.

(** X13. When the archive is downloaded and the extraction command fails
    without touching the files, [downloadServer] returns false and reports
    the command's error, and the downloaded archive stays in the install
    directory: the [catch] block removes nothing. *)
Theorem downloadServer_extraction_failure_keeps_archive (h : Host)
    (fuel hops : nat) (target final e : string) (release : Release)
    (asset : Asset) (res : Response) (w : World) :
  getPlatformTarget h = Some target ->
  latest_release h = ReleaseParsed (JRelease release) ->
  selectAsset release target = Some asset ->
  (forall content mode,
     files w !! path_join h [globalStorage h; "server"] <> Some (File content mode)) ->
  follow h hops (browser_download_url asset) = Some final ->
  https_get h final = Responded res ->
  statusCode res <> 301%Z ->
  statusCode res <> 302%Z ->
  endsWith (path_join h [path_join h [globalStorage h; "server"]; name asset]) ".tar.gz"
  || endsWith (path_join h [path_join h [globalStorage h; "server"]; name asset]) ".zip"
  = true ->
  (forall fs,
     exec h
       (extractCommand h
          (path_join h [path_join h [globalStorage h; "server"]; name asset])
          (path_join h [globalStorage h; "server"])) fs = (Throw e, fs)) ->
  exists w' mode,
    downloadServer h (hops + S fuel) w = Some (Return false, w')
    /\ files w' =
       <[path_join h [path_join h [globalStorage h; "server"]; name asset]
         := File (body res) mode]>
         (<[path_join h [globalStorage h; "server"] := Dir]> (files w))
    /\ last (trace w') = Some (ErrorMessage ("Download failed: " +:+ e)).
Proof.
  intros Ht Hr Hs Hdir Hfollow Hres H301 H302 Hsuffix Hexec.
  rewrite (downloadServer_supported _ _ _ _ Ht).
  rewrite (downloadServer_try_selected _ _ _ release asset) by assumption.
  match goal with
  | |- context [downloadFile h ?f ?u ?d] =>
      match goal with
      | |- context [(_ ;; _) ?w0] =>
          destruct (downloadFile_final_result h fuel hops u final d res w0
                      Hfollow Hres H301 H302) as (mode & urls & Hdl)
      end
  end.
  unfold mbind at 1. unfold task_bind. rewrite Hdl.
  unfold mbind at 1. unfold task_bind. rewrite emit_result.
  unfold mbind at 1. unfold task_bind.
  rewrite extractArchive_recognized, execAsync_result, Hexec by assumption.
  eexists _, mode. split; [reflexivity|]. simpl.
  split; [reflexivity | apply last_snoc].
Qed.

Lemma downloadServer_extraction_failure_keeps_archive_witness :
  exists w' mode,
    downloadServer linux_host_broken_tar 2 empty_world = Some (Return false, w')
    /\ files w' =
       <[path_join linux_host_broken_tar
           [path_join linux_host_broken_tar
              [globalStorage linux_host_broken_tar; "server"];
            "luat-lsp-v0.2.0-x86_64-unknown-linux-gnu.tar.gz"]
         := File "TGZ" mode]>
         (<[path_join linux_host_broken_tar
              [globalStorage linux_host_broken_tar; "server"] := Dir]>
            (files empty_world))
    /\ last (trace w') =
       Some (ErrorMessage ("Download failed: " +:+ "Error: Command failed")).
Proof.
  apply (downloadServer_extraction_failure_keeps_archive linux_host_broken_tar
           0 1 "x86_64-unknown-linux-gnu" "https://cdn.example.org/linux-x64"
           "Error: Command failed" sample_release
           {| name := "luat-lsp-v0.2.0-x86_64-unknown-linux-gnu.tar.gz";
              browser_download_url := "https://example.org/linux-x64" |}
           {| statusCode := 200; location := None; body := "TGZ" |}
           empty_world).
  - reflexivity.
  - reflexivity.
  - reflexivity.
  - intros content mode. vm_compute. discriminate.
  - reflexivity.
  - reflexivity.
  - discriminate.
  - discriminate.
  - vm_compute. reflexivity.
  - intros fs. reflexivity.
Defined.

Lemma downloadServer_request_error_leaves_no_archive_witness :
  exists w',
    downloadServer linux_host_down 1 empty_world = Some (Return false, w')
    /\ files w' =
       delete (path_join linux_host_down
                 [path_join linux_host_down [globalStorage linux_host_down; "server"];
                  "luat-lsp-v0.2.0-x86_64-unknown-linux-gnu.tar.gz"])
         (<[path_join linux_host_down [globalStorage linux_host_down; "server"]
            := Dir]> (files empty_world))
    /\ files w' !! path_join linux_host_down
                     [path_join linux_host_down
                        [globalStorage linux_host_down; "server"];
                      "luat-lsp-v0.2.0-x86_64-unknown-linux-gnu.tar.gz"]
       = None
    /\ last (trace w') =
       Some (ErrorMessage ("Download failed: " +:+ "Error: connect ECONNREFUSED")).
Proof.
  apply (downloadServer_request_error_leaves_no_archive linux_host_down 0 0
           "x86_64-unknown-linux-gnu" "https://example.org/linux-x64"
           "Error: connect ECONNREFUSED" sample_release
           {| name := "luat-lsp-v0.2.0-x86_64-unknown-linux-gnu.tar.gz";
              browser_download_url := "https://example.org/linux-x64" |}
           empty_world).
  - reflexivity.
  - reflexivity.
  - reflexivity.
  - intros content mode. vm_compute. discriminate.
  - reflexivity.
  - reflexivity.
Defined.

Lemma extractArchive_selected_asset_runs_command_witness :
  extractArchive linux_host
    ("/home/dev/storage/server/" +:+ "luat-lsp-v0.2.0-x86_64-unknown-linux-gnu.tar.gz")
    "/home/dev/storage/server" empty_world =
  Some (fst (exec linux_host
               (extractCommand linux_host
                  ("/home/dev/storage/server/"
                   +:+ "luat-lsp-v0.2.0-x86_64-unknown-linux-gnu.tar.gz")
                  "/home/dev/storage/server") (files empty_world)),
        {| files :=
             snd (exec linux_host
                    (extractCommand linux_host
                       ("/home/dev/storage/server/"
                        +:+ "luat-lsp-v0.2.0-x86_64-unknown-linux-gnu.tar.gz")
                       "/home/dev/storage/server") (files empty_world));
           client := client empty_world;
           subscriptions := subscriptions empty_world;
           trace := trace empty_world ++
             [ExecCommand
                (extractCommand linux_host
                   ("/home/dev/storage/server/"
                    +:+ "luat-lsp-v0.2.0-x86_64-unknown-linux-gnu.tar.gz")
                   "/home/dev/storage/server")] |}).
Proof.
  apply (extractArchive_selected_asset_runs_command linux_host sample_release
           "x86_64-unknown-linux-gnu"
           {| name := "luat-lsp-v0.2.0-x86_64-unknown-linux-gnu.tar.gz";
              browser_download_url := "https://example.org/linux-x64" |}
           "/home/dev/storage/server/").
  - reflexivity.
  - reflexivity.
Defined.

Lemma split_free (delim : ascii) (s : string) :
  free_of delim s = true -> split delim s = [s].
Proof.
  induction s as [|c s IH]; [reflexivity|]. simpl.
  intros H. apply andb_true_iff in H as [Hc Hs].
  apply negb_true_iff in Hc. rewrite Hc, (IH Hs). reflexivity.
Qed.

Lemma split_append (delim : ascii) (s rest : string) :
  free_of delim s = true ->
  split delim (s +:+ String delim rest) = s :: split delim rest.
Proof.
  induction s as [|c s IH]; intros H.
  - change (split delim (String delim rest) = EmptyString :: split delim rest).
    simpl. now rewrite Ascii.eqb_refl.
  - change (split delim (String c (s +:+ String delim rest))
            = String c s :: split delim rest).
    simpl in H. apply andb_true_iff in H as [Hc Hs].
    apply negb_true_iff in Hc. simpl. now rewrite Hc, (IH Hs).
Qed.

Lemma split_concat (delim : ascii) (dirs : list string) :
  dirs <> [] ->
  Forall (fun dir => free_of delim dir = true) dirs ->
  split delim (String.concat (String delim EmptyString) dirs) = dirs.
Proof.
  induction dirs as [|dir dirs IH]; [congruence|]. intros _ Hfree.
  inversion Hfree as [|? ? Hdir Hdirs]; subst.
  destruct dirs as [|dir' dirs].
  - now apply split_free.
  - change (split delim
              (dir +:+ String delim
                 (String.concat (String delim EmptyString) (dir' :: dirs)))
            = dir :: dir' :: dirs).
    rewrite split_append by assumption. now rewrite IH.
Qed.

(** X14. When [PATH] is a list of directories, none holding the delimiter,
    joined by the delimiter, the locator probes the binary in exactly those
    directories, in that order, after the override and the storage
    directory and before the cargo directory. *)
Theorem getServerPath_follows_PATH_order (h : Host) (fs : FS)
    (dirs : list string) :
  dirs <> [] ->
  Forall (fun dir => free_of (path_delimiter h) dir = true) dirs ->
  env_PATH h = Some (String.concat (String (path_delimiter h) EmptyString) dirs) ->
  getServerPath h fs =
  array_find (existsSync fs)
    ((if truthy (config_server_path h)
      then [or_else (config_server_path h) EmptyString] else [])
     ++ [path_join h [globalStorage h; "server"; BINARY_NAME h]]
     ++ map (fun dir => path_join h [dir; BINARY_NAME h]) dirs
     ++ [path_join h [or_else (env_CARGO_HOME h) (path_join h [homedir h; ".cargo"]);
                      "bin"; BINARY_NAME h]]).
Proof.
  intros Hne Hfree Hpath.
  rewrite getServerPath_find. unfold locatorCandidates. rewrite Hpath.
  replace (or_else (Some (String.concat (String (path_delimiter h) EmptyString) dirs))
             EmptyString)
    with (String.concat (String (path_delimiter h) EmptyString) dirs)
    by now destruct (String.concat _ dirs).
  now rewrite split_concat.
Qed.

Lemma getServerPath_follows_PATH_order_witness :
  getServerPath linux_host (files located_world) =
  array_find (existsSync (files located_world))
    ((if truthy (config_server_path linux_host)
      then [or_else (config_server_path linux_host) EmptyString] else [])
     ++ [path_join linux_host
           [globalStorage linux_host; "server"; BINARY_NAME linux_host]]
     ++ map (fun dir => path_join linux_host [dir; BINARY_NAME linux_host])
            ["/usr/local/bin"; "/usr/bin"]
     ++ [path_join linux_host
           [or_else (env_CARGO_HOME linux_host)
              (path_join linux_host [homedir linux_host; ".cargo"]);
            "bin"; BINARY_NAME linux_host]]).
Proof.
  apply (getServerPath_follows_PATH_order linux_host (files located_world)
           ["/usr/local/bin"; "/usr/bin"]).
  - discriminate.
  - repeat constructor.
  - reflexivity.
Defined.

(** ** A download the locator does not see *)

(** X15. A download that returns true and yet leaves nothing the locator
    finds (on win32 no step looks for the binary after extraction) brings
    the prompt back; declining it then ends [activate] normally, in the
    world the download left plus that second prompt: no session, and no
    message about the install. *)
Theorem activate_prompts_again_after_unlocated_download (h : Host)
    (fuel : nat) (choice : option string) (answers : list (option string))
    (w w1 : World) :
  getServerPath h (files w) = None ->
  downloadServer h fuel (prompted w) = Some (Return true, w1) ->
  getServerPath h (files w1) = None ->
  choice <> Some "Download" ->
  activate h fuel (Some "Download" :: choice :: answers) w =
  Some (Return tt, prompted w1).
Proof.
  intros Hnone Hd Hnone1 Hchoice.
  rewrite activate_not_found, Hd by now rewrite Hnone.
  rewrite bool_decide_eq_true_2 by reflexivity.
  rewrite activate_not_found by now rewrite Hnone1.
  now rewrite bool_decide_eq_false_2.
Qed.

Lemma activate_prompts_again_after_unlocated_download_witness :
  activate win_host 1 [Some "Download"; Some "Cancel"] empty_world =
  Some (Return tt,
        prompted (world_after (downloadServer win_host 1) (prompted empty_world))).
Proof.
  apply (activate_prompts_again_after_unlocated_download win_host 1
           (Some "Cancel") [] empty_world
           (world_after (downloadServer win_host 1) (prompted empty_world))).
  - vm_compute. reflexivity.
  - vm_compute. reflexivity.
  - vm_compute. reflexivity.
  - discriminate.
Defined.
